(** * searchAfterAndBulkCreate: the pagination and accumulation controller

    Shallow embedding of
    x-pack/plugins/security_solution/server/lib/detection_engine/signals/search_after_bulk_create.ts

    The controller walks a list of time tuples, and for each of them pages
    through the search backend with search_after, filters the page against
    the exception lists, bulk-creates the surviving events as signals and
    folds counts, durations and errors into one return value.

    Conventions of the embedding:
    - a JavaScript [number] that holds a count is a [Z]; [maxSignals] and
      [pageSize] are [Q], since the code itself rounds [maxSignals] with
      [Math.ceil];
    - the three awaited collaborators ([singleSearchAfter],
      [filterEventsAgainstList], [singleBulkCreate]) live outside the file;
      they are fields of a [Services] record acting on an abstract [World],
      and each call either resolves to a value or throws;
    - the mutable locals of the function ([toReturn], [sortId],
      [signalsCreatedCount]) are fields of an explicit state that survives a
      throw, exactly as the catch block sees them;
    - every call to a collaborator is appended, with its argument, to
      [calls], so that "what was passed to the backend" can be stated;
    - JavaScript hands objects around by reference: the filter may resolve
      to the very response object it was given, and line 196 assigns to
      [filteredEvents.hits.hits] in place. The filter's result says which
      object it is, and [searchResult] is read at line 243 as that
      assignment left it;
    - the two [while] loops take fuel: the page loop need not terminate
      against an arbitrary backend. Running out of fuel is a result of its
      own ([OutOfFuel]) that still carries the state reached. *)

From Stdlib Require Import List String ZArith QArith Qround Qminmax.
From Stdlib Require Import Bool Lia Lqa.
Import ListNotations.

Set Implicit Arguments.

(** ** JavaScript helpers used by the controller *)

Module JS.

(** [a < b] on numbers. *)
Definition Qlt_bool (a b : Q) : bool := negb (Qle_bool b a).

(** [Math.ceil]. *)
Definition Math_ceil (q : Q) : Q := inject_Z (Qceiling q).

(** Insertion into a [Set]: a value already present is ignored, a new one
    goes last in iteration order. *)
Definition Set_add (s : list string) (x : string) : list string :=
  if existsb (String.eqb x) s then s else s ++ [x].

(** [[...new Set(xs)]]: the distinct values of [xs] in order of first
    occurrence. *)
Definition newSet (xs : list string) : list string :=
  fold_left Set_add xs [].

(** The integer conversion applied to the arguments of [Array.prototype.slice]:
    truncation toward zero. *)
Definition ToIntegerOrInfinity (q : Q) : Z :=
  if Qle_bool 0 q then Qfloor q else Qceiling q.

(** [xs.slice(0, end)]. A negative [end] counts from the end of the array. *)
Definition slice0 {A : Type} (xs : list A) (end_ : Q) : list A :=
  let len := Z.of_nat (List.length xs) in
  let relativeEnd := ToIntegerOrInfinity end_ in
  let final :=
    if (relativeEnd <? 0)%Z then Z.max (len + relativeEnd) 0
    else Z.min relativeEnd len in
  firstn (Z.to_nat final) xs.

(** [xs[xs.length - 1]]; [None] stands for [undefined]. *)
Definition lastElement {A : Type} (xs : list A) : option A :=
  nth_error xs (List.length xs - 1).

(** Truthiness of an optional string: [undefined] and the empty string are
    falsy. *)
Definition truthy (s : option string) : bool :=
  match s with
  | Some s' => negb (String.eqb s' EmptyString)
  | None => false
  end.

(** Text of the TypeError raised by reading [.sort] of [undefined]; the
    exact wording belongs to the engine. *)
Definition TypeError_sort : string :=
  "TypeError: Cannot read property 'sort' of undefined".

(** Text of the TypeError raised by calling [.toISOString()] on [null]. *)
Definition TypeError_toISOString : string :=
  "TypeError: Cannot read property 'toISOString' of null".

End JS.

(** ** Data model *)

(** [new Date(value)]; [None] is [new Date(undefined)]. *)
Inductive Date : Type :=
| newDate (value : option string).

(** One raw search hit: [_id], [_source['@timestamp']] and the optional
    [sort] array. *)
Record SignalHit : Type := mkHit {
  hit_id : string;
  source_timestamp : string;
  sort : option (list string)
}.

(** [hits.total]: a bare number, or an object with a [value] field. *)
Inductive HitsTotal : Type :=
| TotalNumber (n : Z)
| TotalObject (value : Z).

(** [SignalSearchResponse], reduced to [hits.total] and [hits.hits]. *)
Record SignalSearchResponse : Type := mkResponse {
  total : HitsTotal;
  hits : list SignalHit
}.

(** One element of [totalToFromTuples]; a bound may be [null]. *)
Record SignalTimeTuple : Type := mkTuple {
  to : option string;
  from : option string;
  maxSignals : Q
}.

Record SearchAfterAndBulkCreateReturnType : Type := mkReturn {
  success : bool;
  searchAfterTimes : list string;
  bulkCreateTimes : list string;
  lastLookBackDate : option Date;
  createdSignalsCount : Z;
  errors : list string
}.

(** The arguments of [singleSearchAfter] that vary from call to call.
    [index], [filter], [services], [logger] and [timestampOverride] are the
    same in every call of a run and are part of the service. *)
Record SingleSearchAfterParams : Type := mkSearchParams {
  searchAfterSortId : option string;
  search_from : string;
  search_to : string;
  search_pageSize : Q
}.

(** What [singleBulkCreate] resolves to, under the names the controller
    binds the fields to. *)
Record SingleBulkCreateResult : Type := mkBulkResult {
  bulkDuration : option string;
  createdCount : Z;
  bulkSuccess : bool;
  bulkErrors : list string
}.

(** An awaited call resolves to a value or throws; [exc] is the text the
    template literal [`${exc}`] renders. *)
Inductive Outcome (A : Type) : Type :=
| Ok (a : A)
| Thrown (exc : string).
Arguments Thrown {A} exc.

(** What [filterEventsAgainstList] resolves to: the very response object it
    was given (or one that shares its [hits] object), or a response object
    of the filter's own. *)
Inductive FilterResult : Type :=
| SameObject
| OwnObject (filteredEvents : SignalSearchResponse).

(** The response a filter result refers to, given the response the filter
    was called on. *)
Definition eventsOf (searchResult : SignalSearchResponse)
    (filterResult : FilterResult) : SignalSearchResponse :=
  match filterResult with
  | SameObject => searchResult
  | OwnObject filteredEvents => filteredEvents
  end.

(** [searchResult] as it stands once lines 193-238 are done with
    [filteredEvents]: that object, cut or not, when the two names refer to
    one object; the response as fetched otherwise. *)
Definition searchResultAfter (searchResult : SignalSearchResponse)
    (filterResult : FilterResult) (filteredEvents : SignalSearchResponse)
    : SignalSearchResponse :=
  match filterResult with
  | SameObject => filteredEvents
  | OwnObject _ => searchResult
  end.

(** The collaborators, as functions of the state of the outside world. The
    arguments that do not vary within a run (clients, logger, rule fields)
    are part of the functions. *)
Record Services (World : Type) : Type := mkServices {
  singleSearchAfter :
    SingleSearchAfterParams -> World ->
    World * Outcome (SignalSearchResponse * string);
  filterEventsAgainstList :
    SignalSearchResponse -> World -> World * Outcome FilterResult;
  singleBulkCreate :
    SignalSearchResponse -> World -> World * Outcome SingleBulkCreateResult
}.

(** The record of one call to a collaborator. *)
Inductive Call : Type :=
| CallSearchAfter (params : SingleSearchAfterParams)
| CallFilter (eventSearchResult : SignalSearchResponse)
| CallBulkCreate (filteredEvents : SignalSearchResponse).

(** The mutable state of one run. *)
Record Locals (World : Type) : Type := mkLocals {
  world : World;
  calls : list Call;
  toReturn : SearchAfterAndBulkCreateReturnType;
  sortId : option string;
  signalsCreatedCount : Z
}.

(** How the body of the page loop ends when it does not throw. *)
Inductive LoopCtl : Type :=
| Continue
| Break.

(** How a loop ends. *)
Inductive Exit : Type :=
| OutOfFuel
| LoopExit
| Return.

(** ** Field updates *)

Definition with_world {W : Type} (w : W) (st : Locals W) : Locals W :=
  mkLocals w (calls st) (toReturn st) (sortId st) (signalsCreatedCount st).

Definition with_call {W : Type} (c : Call) (st : Locals W) : Locals W :=
  mkLocals (world st) (calls st ++ [c]) (toReturn st) (sortId st)
           (signalsCreatedCount st).

Definition with_toReturn {W : Type} (r : SearchAfterAndBulkCreateReturnType)
    (st : Locals W) : Locals W :=
  mkLocals (world st) (calls st) r (sortId st) (signalsCreatedCount st).

Definition with_sortId {W : Type} (s : option string) (st : Locals W)
    : Locals W :=
  mkLocals (world st) (calls st) (toReturn st) s (signalsCreatedCount st).

Definition with_signalsCreatedCount {W : Type} (n : Z) (st : Locals W)
    : Locals W :=
  mkLocals (world st) (calls st) (toReturn st) (sortId st) n.

(** [toReturn.searchAfterTimes.push(searchDuration)]. *)
Definition push_searchAfterTime (d : string)
    (r : SearchAfterAndBulkCreateReturnType) :=
  mkReturn (success r) (searchAfterTimes r ++ [d]) (bulkCreateTimes r)
           (lastLookBackDate r) (createdSignalsCount r) (errors r).

(** [toReturn.lastLookBackDate = d]. *)
Definition set_lastLookBackDate (d : option Date)
    (r : SearchAfterAndBulkCreateReturnType) :=
  mkReturn (success r) (searchAfterTimes r) (bulkCreateTimes r) d
           (createdSignalsCount r) (errors r).

(** Lines 226-237: the result of one bulk create folded into [toReturn]. *)
Definition merge_bulk (b : SingleBulkCreateResult)
    (r : SearchAfterAndBulkCreateReturnType) :=
  mkReturn (success r && bulkSuccess b)
           (searchAfterTimes r)
           (if JS.truthy (bulkDuration b)
            then bulkCreateTimes r ++ [match bulkDuration b with
                                       | Some d => d
                                       | None => EmptyString
                                       end]
            else bulkCreateTimes r)
           (lastLookBackDate r)
           (createdSignalsCount r + createdCount b)
           (JS.newSet (errors r ++ bulkErrors b)).

(** [toReturn.success = false] and
    [toReturn.errors = [...new Set([...toReturn.errors, e])]]:
    what the malformed-tuple branch (lines 115-116) and the catch block
    (lines 252-253) both do. *)
Definition fail_with (e : string) (r : SearchAfterAndBulkCreateReturnType) :=
  mkReturn false (searchAfterTimes r) (bulkCreateTimes r)
           (lastLookBackDate r) (createdSignalsCount r)
           (JS.newSet (errors r ++ [e])).

(** The initial [toReturn] (lines 84-91). *)
Definition initialReturn : SearchAfterAndBulkCreateReturnType :=
  mkReturn true [] [] None 0 [].

(** [totalHits] (lines 144-147). *)
Definition totalHits (searchResult : SignalSearchResponse) : Z :=
  match total searchResult with
  | TotalNumber n => n
  | TotalObject value => value
  end.

(** ** The controller *)

Section Controller.

Variable World : Type.
Variable services : Services World.
(** The configured [pageSize]. *)
Variable pageSize : Q.

(** Computations of the loop body: they read and write the locals, call
    the collaborators, and may throw. The state reached is kept when they
    throw. *)
Definition M (A : Type) : Type :=
  Locals World -> Locals World * Outcome A.

Definition ret {A : Type} (a : A) : M A := fun st => (st, Ok a).

Definition throw {A : Type} (exc : string) : M A :=
  fun st => (st, Thrown exc).

Definition bind {A B : Type} (m : M A) (k : A -> M B) : M B :=
  fun st =>
    match m st with
    | (st', Ok a) => k a st'
    | (st', Thrown exc) => (st', Thrown exc)
    end.

Definition get : M (Locals World) := fun st => (st, Ok st).

Definition modify (f : Locals World -> Locals World) : M unit :=
  fun st => (f st, Ok tt).

(** An awaited call to a collaborator: it is recorded in [calls], moves the
    world on, and resolves or throws. *)
Definition await {A : Type} (c : Call) (f : World -> World * Outcome A)
    : M A :=
  fun st =>
    let (w', r) := f (world st) in
    (with_world w' (with_call c st), r).

Notation "x <- m ;; k" := (bind m (fun x => k))
  (at level 61, m at next level, right associativity).
Notation "m ;;; k" := (bind m (fun _ => k))
  (at level 61, right associativity).

(** [d.toISOString()] on a bound that may be [null]. *)
Definition toISOString (d : option string) : M string :=
  match d with
  | Some iso => ret iso
  | None => throw JS.TypeError_toISOString
  end.

(** The [pageSize] argument of line 137. *)
Definition pageSizeArg (tuple : SignalTimeTuple) : Q :=
  if JS.Qlt_bool (maxSignals tuple) pageSize
  then JS.Math_ceil (maxSignals tuple)
  else pageSize.

(** Lines 195-200: the object [filteredEvents] once its [hits.hits] has
    been assigned the slice, when the slice is taken; it is what
    [singleBulkCreate] is handed, and what every name of that object
    refers to from then on. *)
Definition truncateToBudget (tuple : SignalTimeTuple) (count : Z)
    (filteredEvents : SignalSearchResponse) : SignalSearchResponse :=
  if JS.Qlt_bool (maxSignals tuple)
       (inject_Z (count + Z.of_nat (List.length (hits filteredEvents))))
  then mkResponse (total filteredEvents)
         (JS.slice0 (hits filteredEvents)
                    (maxSignals tuple - inject_Z count))
  else filteredEvents.

(** Lines 193-238: bulk create, unless nothing is left after filtering.
    The result is the object [filteredEvents] as these lines leave it. *)
Definition bulkCreateStep (tuple : SignalTimeTuple)
    (filteredEvents : SignalSearchResponse) : M SignalSearchResponse :=
  if negb (Nat.eqb (List.length (hits filteredEvents)) 0) then
    st <- get ;;
    let filteredEvents' :=
      truncateToBudget tuple (signalsCreatedCount st) filteredEvents in
    b <- await (CallBulkCreate filteredEvents')
               (singleBulkCreate services filteredEvents') ;;
    modify (fun st =>
      with_signalsCreatedCount (signalsCreatedCount st + createdCount b)
        (with_toReturn (merge_bulk b (toReturn st)) st)) ;;;
    ret filteredEvents'
  else ret filteredEvents.

(** Lines 243-249: move the cursor on, or leave the page loop.
    [searchResult] is the response as it stands at line 243; reading
    [.sort] of the last element of an empty array throws. *)
Definition advanceSortId (searchResult : SignalSearchResponse) : M LoopCtl :=
  match JS.lastElement (hits searchResult) with
  | None => throw JS.TypeError_sort
  | Some lastHit =>
      match sort lastHit with
      | Some (first :: _) =>
          modify (with_sortId (Some first)) ;;; ret Continue
      | Some [] | None => ret Break
      end
  end.

(** Lines 171-176: the date of the last hit of the page. *)
Definition lookBackDate (searchResult : SignalSearchResponse)
    : option Date :=
  if Nat.ltb 0 (List.length (hits searchResult))
  then Some (newDate (option_map source_timestamp
                        (JS.lastElement (hits searchResult))))
  else None.

(** Lines 122-249: the body of the [try] block. *)
Definition pageBody (tuple : SignalTimeTuple) : M LoopCtl :=
  st <- get ;;
  fromIso <- toISOString (from tuple) ;;
  toIso <- toISOString (to tuple) ;;
  let params :=
    mkSearchParams (sortId st) fromIso toIso (pageSizeArg tuple) in
  found <- await (CallSearchAfter params)
                 (singleSearchAfter services params) ;;
  let searchResult := fst found in
  let searchDuration := snd found in
  modify (fun st =>
    with_toReturn (push_searchAfterTime searchDuration (toReturn st)) st) ;;;
  if (totalHits searchResult =? 0)%Z
     || Nat.eqb (List.length (hits searchResult)) 0
  then ret Break
  else
    modify (fun st =>
      with_toReturn
        (set_lastLookBackDate (lookBackDate searchResult) (toReturn st))
        st) ;;;
    filterResult <- await (CallFilter searchResult)
                          (filterEventsAgainstList services searchResult) ;;
    filteredEvents <- bulkCreateStep tuple
                        (eventsOf searchResult filterResult) ;;
    advanceSortId
      (searchResultAfter searchResult filterResult filteredEvents).

(** The catch block (lines 250-255). *)
Definition catchBlock (exc : string) (st : Locals World) : Locals World :=
  with_toReturn (fail_with exc (toReturn st)) st.

(** The inner [while] loop (lines 120-256). *)
Fixpoint pageLoop (fuel : nat) (tuple : SignalTimeTuple)
    (st : Locals World) : Locals World * Exit :=
  if JS.Qlt_bool (inject_Z (signalsCreatedCount st)) (maxSignals tuple) then
    match fuel with
    | O => (st, OutOfFuel)
    | S fuel' =>
        match pageBody tuple st with
        | (st', Ok Continue) => pageLoop fuel' tuple st'
        | (st', Ok Break) => (st', LoopExit)
        | (st', Thrown exc) => (catchBlock exc st', Return)
        end
    end
  else (st, LoopExit).

(** [x == null]. *)
Definition isNull {A : Type} (x : option A) : bool :=
  match x with
  | Some _ => false
  | None => true
  end.

(** Lines 114-117: the run ends on a malformed tuple. *)
Definition malformedTuple (st : Locals World) : Locals World * Exit :=
  (with_toReturn (fail_with "malformed date tuple" (toReturn st)) st, Return).

(** The outer [while] loop (lines 111-257). [stack] holds the tuples still
    to be popped, next one first. Each window gets [fuel] page
    iterations. *)
Fixpoint windowLoop (fuel : nat) (stack : list (option SignalTimeTuple))
    (st : Locals World) : Locals World * Exit :=
  match stack with
  | [] => (st, LoopExit)
  | None :: _ => malformedTuple st
  | Some tuple :: rest =>
      if isNull (to tuple) || isNull (from tuple) then malformedTuple st
      else
        match pageLoop fuel tuple (with_signalsCreatedCount 0 st) with
        | (st', LoopExit) => windowLoop fuel rest st'
        | (st', exit) => (st', exit)
        end
  end.

(** The state at line 98, before the first window. *)
Definition initialLocals (w : World) : Locals World :=
  mkLocals w [] initialReturn None 0.

(** [searchAfterAndBulkCreate]. [totalToFromTuples] is the array returned
    by [getSignalTimeTuples]; [pop] takes from its end, hence the [rev].
    The exit is [LoopExit] when the function returns at line 259, [Return]
    when it returns early at line 117 or 254. *)
Definition searchAfterAndBulkCreate (fuel : nat)
    (totalToFromTuples : list (option SignalTimeTuple)) (w : World)
    : Locals World * Exit :=
  windowLoop fuel (rev totalToFromTuples) (initialLocals w).

End Controller.

Arguments pageBody {World} services pageSize tuple st.
Arguments pageLoop {World} services pageSize fuel tuple st.
Arguments windowLoop {World} services pageSize fuel stack st.
Arguments searchAfterAndBulkCreate {World} services pageSize fuel
  totalToFromTuples w.
Arguments bulkCreateStep {World} services tuple filteredEvents st.
Arguments advanceSortId {World} searchResult st.
Arguments catchBlock {World} exc st.
Arguments malformedTuple {World} st.
Arguments initialLocals {World} w.

(** ** Observing one iteration of the page loop

    The states the body of the page loop goes through, and the ways an
    iteration, a window and a run can go, named so that the statements
    below can refer to them. *)

Section Observations.

Variable World : Type.
Variable services : Services World.
Variable pageSize : Q.

(** The arguments of the page fetch issued from state [st] for a tuple
    whose bounds render as [fromIso] and [toIso]. *)
Definition searchParams (tuple : SignalTimeTuple) (fromIso toIso : string)
    (st : Locals World) : SingleSearchAfterParams :=
  mkSearchParams (sortId st) fromIso toIso (pageSizeArg pageSize tuple).

(** The state once the page fetch was issued and threw. *)
Definition searchFailed (params : SingleSearchAfterParams) (w : World)
    (st : Locals World) : Locals World :=
  with_world w (with_call (CallSearchAfter params) st).

(** The state once the page fetch resolved and its duration was pushed. *)
Definition searched (params : SingleSearchAfterParams) (w : World)
    (searchDuration : string) (st : Locals World) : Locals World :=
  with_toReturn (push_searchAfterTime searchDuration (toReturn st))
    (with_world w (with_call (CallSearchAfter params) st)).

(** The state once [lastLookBackDate] was set and the filter was called. *)
Definition filtered (searchResult : SignalSearchResponse) (w : World)
    (st : Locals World) : Locals World :=
  with_world w
    (with_call (CallFilter searchResult)
       (with_toReturn
          (set_lastLookBackDate (lookBackDate searchResult) (toReturn st))
          st)).

(** The state once the bulk create was issued and threw. *)
Definition bulkFailed (offered : SignalSearchResponse) (w : World)
    (st : Locals World) : Locals World :=
  with_world w (with_call (CallBulkCreate offered) st).

(** The state once the bulk create resolved to [b] and was folded in. *)
Definition bulkCreated (offered : SignalSearchResponse) (w : World)
    (b : SingleBulkCreateResult) (st : Locals World) : Locals World :=
  with_signalsCreatedCount (signalsCreatedCount st + createdCount b)
    (with_toReturn (merge_bulk b (toReturn st))
       (with_world w (with_call (CallBulkCreate offered) st))).

(** The guard of the page loop (line 120). *)
Definition belowBudget (tuple : SignalTimeTuple) (st : Locals World)
    : Prop :=
  inject_Z (signalsCreatedCount st) < maxSignals tuple.

(** The page came back with something to process (the negation of the
    test of line 161). *)
Definition hasHits (searchResult : SignalSearchResponse) : Prop :=
  totalHits searchResult <> 0%Z /\ hits searchResult <> [].

(** A tuple with both bounds present. *)
Definition window (toIso fromIso : string) (m : Q) : SignalTimeTuple :=
  mkTuple (Some toIso) (Some fromIso) m.

(** [pageFails toIso fromIso m st exc stF]: in the iteration begun in state
    [st], the page fetch, the filter or the bulk create throws [exc];
    [stF] is the state at that moment, as the catch block finds it. *)
Inductive pageFails (toIso fromIso : string) (m : Q) (st : Locals World)
    : string -> Locals World -> Prop :=
| search_throws (w1 : World) (exc : string) :
    singleSearchAfter services
      (searchParams (window toIso fromIso m) fromIso toIso st) (world st)
    = (w1, Thrown exc) ->
    pageFails toIso fromIso m st exc
      (searchFailed (searchParams (window toIso fromIso m) fromIso toIso st)
         w1 st)
| filter_throws (w1 w2 : World) (searchResult : SignalSearchResponse)
    (searchDuration exc : string) :
    singleSearchAfter services
      (searchParams (window toIso fromIso m) fromIso toIso st) (world st)
    = (w1, Ok (searchResult, searchDuration)) ->
    hasHits searchResult ->
    filterEventsAgainstList services searchResult w1 = (w2, Thrown exc) ->
    pageFails toIso fromIso m st exc
      (filtered searchResult w2
         (searched (searchParams (window toIso fromIso m) fromIso toIso st)
            w1 searchDuration st))
| bulk_throws (w1 w2 w3 : World) (searchResult : SignalSearchResponse)
    (filterResult : FilterResult) (searchDuration exc : string) :
    singleSearchAfter services
      (searchParams (window toIso fromIso m) fromIso toIso st) (world st)
    = (w1, Ok (searchResult, searchDuration)) ->
    hasHits searchResult ->
    filterEventsAgainstList services searchResult w1
    = (w2, Ok filterResult) ->
    hits (eventsOf searchResult filterResult) <> [] ->
    singleBulkCreate services
      (truncateToBudget (window toIso fromIso m) (signalsCreatedCount st)
         (eventsOf searchResult filterResult)) w2
    = (w3, Thrown exc) ->
    pageFails toIso fromIso m st exc
      (bulkFailed
         (truncateToBudget (window toIso fromIso m) (signalsCreatedCount st)
            (eventsOf searchResult filterResult)) w3
         (filtered searchResult w2
            (searched (searchParams (window toIso fromIso m) fromIso toIso st)
               w1 searchDuration st))).

(** [pageProcessed toIso fromIso m st searchResult filterResult wrote stW]:
    in the iteration begun in state [st], the page fetch resolved to
    [searchResult], a page with hits; the filter resolved to
    [filterResult]; and either nothing was left and the bulk create was
    skipped ([wrote = None]), or the bulk create was called and resolved to
    [b] ([wrote = Some b]). [stW] is the state reached just before line 243
    looks at the cursor. *)
Inductive pageProcessed (toIso fromIso : string) (m : Q) (st : Locals World)
    : SignalSearchResponse -> FilterResult -> option SingleBulkCreateResult
      -> Locals World -> Prop :=
| processed_without_write (w1 w2 : World)
    (searchResult : SignalSearchResponse) (filterResult : FilterResult)
    (searchDuration : string) :
    singleSearchAfter services
      (searchParams (window toIso fromIso m) fromIso toIso st) (world st)
    = (w1, Ok (searchResult, searchDuration)) ->
    hasHits searchResult ->
    filterEventsAgainstList services searchResult w1
    = (w2, Ok filterResult) ->
    hits (eventsOf searchResult filterResult) = [] ->
    pageProcessed toIso fromIso m st searchResult filterResult None
      (filtered searchResult w2
         (searched (searchParams (window toIso fromIso m) fromIso toIso st)
            w1 searchDuration st))
| processed_with_write (w1 w2 w3 : World)
    (searchResult : SignalSearchResponse) (filterResult : FilterResult)
    (searchDuration : string) (b : SingleBulkCreateResult) :
    singleSearchAfter services
      (searchParams (window toIso fromIso m) fromIso toIso st) (world st)
    = (w1, Ok (searchResult, searchDuration)) ->
    hasHits searchResult ->
    filterEventsAgainstList services searchResult w1
    = (w2, Ok filterResult) ->
    hits (eventsOf searchResult filterResult) <> [] ->
    singleBulkCreate services
      (truncateToBudget (window toIso fromIso m) (signalsCreatedCount st)
         (eventsOf searchResult filterResult)) w2
    = (w3, Ok b) ->
    pageProcessed toIso fromIso m st searchResult filterResult (Some b)
      (bulkCreated
         (truncateToBudget (window toIso fromIso m) (signalsCreatedCount st)
            (eventsOf searchResult filterResult)) w3 b
         (filtered searchResult w2
            (searched (searchParams (window toIso fromIso m) fromIso toIso st)
               w1 searchDuration st))).

(** [searchResult] as line 243 finds it in an iteration begun with the
    count [count]: cut to the budget with [filteredEvents] when the filter
    handed back the object it was given and the bulk create was reached;
    as fetched otherwise. *)
Definition pageAtCursor (tuple : SignalTimeTuple) (count : Z)
    (searchResult : SignalSearchResponse) (filterResult : FilterResult)
    : SignalSearchResponse :=
  match filterResult with
  | SameObject => truncateToBudget tuple count searchResult
  | OwnObject _ => searchResult
  end.

(** Every way an iteration of the page loop can go, for any tuple. *)
Inductive BodyOutcome (tuple : SignalTimeTuple) (st : Locals World)
    : Locals World * Outcome LoopCtl -> Prop :=
| body_no_from :
    from tuple = None ->
    BodyOutcome tuple st (st, Thrown JS.TypeError_toISOString)
| body_no_to :
    to tuple = None ->
    BodyOutcome tuple st (st, Thrown JS.TypeError_toISOString)
| body_fails (toIso fromIso : string) (exc : string) (stF : Locals World) :
    tuple = window toIso fromIso (maxSignals tuple) ->
    pageFails toIso fromIso (maxSignals tuple) st exc stF ->
    BodyOutcome tuple st (stF, Thrown exc)
| body_no_hits (toIso fromIso : string) (w1 : World)
    (searchResult : SignalSearchResponse) (searchDuration : string) :
    tuple = window toIso fromIso (maxSignals tuple) ->
    singleSearchAfter services
      (searchParams tuple fromIso toIso st) (world st)
    = (w1, Ok (searchResult, searchDuration)) ->
    totalHits searchResult = 0%Z \/ hits searchResult = [] ->
    BodyOutcome tuple st
      (searched (searchParams tuple fromIso toIso st) w1 searchDuration st,
       Ok Break)
| body_processed (toIso fromIso : string)
    (searchResult : SignalSearchResponse) (filterResult : FilterResult)
    (wrote : option SingleBulkCreateResult) (stW : Locals World) :
    tuple = window toIso fromIso (maxSignals tuple) ->
    pageProcessed toIso fromIso (maxSignals tuple) st searchResult
      filterResult wrote stW ->
    BodyOutcome tuple st
      (advanceSortId
         (pageAtCursor tuple (signalsCreatedCount st) searchResult
            filterResult)
         stW).

(** [pagesThrough tuple st n st']: starting at the head of the page loop in
    state [st], [n] pages are processed in full, each ending with a new
    cursor, and the loop is back at its head in state [st']. *)
Inductive pagesThrough (tuple : SignalTimeTuple)
    : Locals World -> nat -> Locals World -> Prop :=
| pagesThrough_start (st : Locals World) : pagesThrough tuple st 0 st
| pagesThrough_next (st st1 st2 : Locals World) (n : nat) :
    belowBudget tuple st ->
    pageBody services pageSize tuple st = (st1, Ok Continue) ->
    pagesThrough tuple st1 n st2 ->
    pagesThrough tuple st (S n) st2.

(** [windowsDone fuel earlier w st]: the run started in world [w] has popped
    and completed the tuples [earlier] (the tail end of the array) and is
    at the head of the window loop in state [st]. *)
Definition windowsDone (fuel : nat) (earlier : list (option SignalTimeTuple))
    (w : World) (st : Locals World) : Prop :=
  windowLoop services pageSize fuel (rev earlier) (initialLocals w)
  = (st, LoopExit).

(** The bulk writer never reports more created items than it was offered. *)
Definition truthfulWriter : Prop :=
  forall (offered : SignalSearchResponse) (w w' : World)
         (b : SingleBulkCreateResult),
    singleBulkCreate services offered w = (w', Ok b) ->
    (createdCount b <= Z.of_nat (List.length (hits offered)))%Z.

(** Every page fetch on record was made for a tuple of [tuples], with the
    page size line 137 computes for that tuple. *)
Definition searchesFor (tuples : list (option SignalTimeTuple))
    (st : Locals World) : Prop :=
  forall p,
    In (CallSearchAfter p) (calls st) ->
    exists tuple,
      In (Some tuple) tuples
      /\ from tuple = Some (search_from p)
      /\ to tuple = Some (search_to p)
      /\ search_pageSize p = pageSizeArg pageSize tuple.

(** [replays w cs w']: the record [cs] is what a sequence of rounds leaves
    when played against the collaborators from the world [w], and [w'] is
    the world they leave. A round is a page fetch that throws or resolves
    to a page with a total of 0 or without hits, and nothing more; or a
    page fetch that resolves to a page with hits and the filter called on
    that very page, which throws or leaves nothing; or such a fetch and
    filter call followed by one bulk create, handed a leading part of what
    the filter left. *)
Inductive replays (w : World) : list Call -> World -> Prop :=
| replays_nothing : replays w [] w
| replays_search_thrown (cs : list Call) (w0 w1 : World)
    (params : SingleSearchAfterParams) (exc : string) :
    replays w cs w0 ->
    singleSearchAfter services params w0 = (w1, Thrown exc) ->
    replays w (cs ++ [CallSearchAfter params]) w1
| replays_no_hits (cs : list Call) (w0 w1 : World)
    (params : SingleSearchAfterParams) (searchResult : SignalSearchResponse)
    (searchDuration : string) :
    replays w cs w0 ->
    singleSearchAfter services params w0
    = (w1, Ok (searchResult, searchDuration)) ->
    totalHits searchResult = 0%Z \/ hits searchResult = [] ->
    replays w (cs ++ [CallSearchAfter params]) w1
| replays_filter_thrown (cs : list Call) (w0 w1 w2 : World)
    (params : SingleSearchAfterParams) (searchResult : SignalSearchResponse)
    (searchDuration exc : string) :
    replays w cs w0 ->
    singleSearchAfter services params w0
    = (w1, Ok (searchResult, searchDuration)) ->
    hasHits searchResult ->
    filterEventsAgainstList services searchResult w1 = (w2, Thrown exc) ->
    replays w (cs ++ [CallSearchAfter params; CallFilter searchResult]) w2
| replays_nothing_left (cs : list Call) (w0 w1 w2 : World)
    (params : SingleSearchAfterParams) (searchResult : SignalSearchResponse)
    (searchDuration : string) (filterResult : FilterResult) :
    replays w cs w0 ->
    singleSearchAfter services params w0
    = (w1, Ok (searchResult, searchDuration)) ->
    hasHits searchResult ->
    filterEventsAgainstList services searchResult w1
    = (w2, Ok filterResult) ->
    hits (eventsOf searchResult filterResult) = [] ->
    replays w (cs ++ [CallSearchAfter params; CallFilter searchResult]) w2
| replays_bulk_create (cs : list Call) (w0 w1 w2 w3 : World)
    (params : SingleSearchAfterParams) (searchResult : SignalSearchResponse)
    (searchDuration : string) (filterResult : FilterResult)
    (offered : SignalSearchResponse) (n : nat)
    (outcome : Outcome SingleBulkCreateResult) :
    replays w cs w0 ->
    singleSearchAfter services params w0
    = (w1, Ok (searchResult, searchDuration)) ->
    hasHits searchResult ->
    filterEventsAgainstList services searchResult w1
    = (w2, Ok filterResult) ->
    hits (eventsOf searchResult filterResult) <> [] ->
    total offered = total (eventsOf searchResult filterResult) ->
    hits offered = firstn n (hits (eventsOf searchResult filterResult)) ->
    singleBulkCreate services offered w2 = (w3, outcome) ->
    replays w
      (cs ++ [CallSearchAfter params; CallFilter searchResult;
              CallBulkCreate offered])
      w3.

End Observations.

(** The sum of [maxSignals] over the tuples of the array ([null] entries
    have none). *)
Fixpoint sumMaxSignals (tuples : list (option SignalTimeTuple)) : Q :=
  match tuples with
  | [] => 0
  | Some tuple :: rest => maxSignals tuple + sumMaxSignals rest
  | None :: rest => sumMaxSignals rest
  end.

(** No tuple has a negative [maxSignals]. *)
Definition capsNonNegative (tuples : list (option SignalTimeTuple)) : Prop :=
  forall tuple, In (Some tuple) tuples -> 0 <= maxSignals tuple.

(** [more] holds no page fetch. *)
Definition noSearch (more : list Call) : Prop :=
  forall p, ~ In (CallSearchAfter p) more.

(** [tuple == null || tuple.to == null || tuple.from == null] (line 113). *)
Definition malformed (tuple : option SignalTimeTuple) : bool :=
  match tuple with
  | None => true
  | Some t => isNull (to t) || isNull (from t)
  end.

(** The page size as the specification words it: the minimum of the budget
    the window has left and the configured page size, rounded up. *)
Definition specPageSize (tuple : SignalTimeTuple) (count : Z) (pageSize : Q)
    : Q :=
  JS.Math_ceil (Qmin (maxSignals tuple - inject_Z count) pageSize).

(** ** Reading the record of calls *)

(** The cursors of the page fetches on record, in the order made. *)
Fixpoint cursors (cs : list Call) : list (option string) :=
  match cs with
  | [] => []
  | CallSearchAfter p :: rest => searchAfterSortId p :: cursors rest
  | _ :: rest => cursors rest
  end.

(** The number of bulk creates on record. *)
Fixpoint bulkCalls (cs : list Call) : nat :=
  match cs with
  | [] => O
  | CallBulkCreate _ :: rest => S (bulkCalls rest)
  | _ :: rest => bulkCalls rest
  end.

(** The number of events handed to the bulk writer over all its calls. *)
Fixpoint offeredEvents (cs : list Call) : Z :=
  match cs with
  | [] => 0
  | CallBulkCreate offered :: rest =>
      Z.of_nat (List.length (hits offered)) + offeredEvents rest
  | _ :: rest => offeredEvents rest
  end.

(** The page handed to the filter last, [acc] if there is none. *)
Fixpoint lastFilteredFrom (acc : option SignalSearchResponse)
    (cs : list Call) : option SignalSearchResponse :=
  match cs with
  | [] => acc
  | CallFilter r :: rest => lastFilteredFrom (Some r) rest
  | _ :: rest => lastFilteredFrom acc rest
  end.

Definition lastFiltered (cs : list Call) : option SignalSearchResponse :=
  lastFilteredFrom None cs.

(** Every tuple has a whole-number [maxSignals]. *)
Definition wholeCaps (tuples : list (option SignalTimeTuple)) : Prop :=
  forall tuple,
    In (Some tuple) tuples -> exists k : Z, maxSignals tuple == inject_Z k.

(** Every tuple has both bounds and a [maxSignals] of 0 or less. *)
Definition noBudget (tuples : list (option SignalTimeTuple)) : Prop :=
  forall tuple,
    In tuple tuples ->
    exists toIso fromIso m,
      tuple = Some (window toIso fromIso m) /\ m <= 0.

(** [accumulates st st']: from [st] to [st'] the return value has only been
    added to. *)
Definition accumulates {World : Type} (st st' : Locals World) : Prop :=
  (exists more,
      searchAfterTimes (toReturn st') = searchAfterTimes (toReturn st) ++ more)
  /\ (exists more,
        bulkCreateTimes (toReturn st') = bulkCreateTimes (toReturn st) ++ more)
  /\ (forall e, In e (errors (toReturn st)) -> In e (errors (toReturn st')))
  /\ (success (toReturn st') = true -> success (toReturn st) = true)
  /\ (lastLookBackDate (toReturn st) <> None ->
      lastLookBackDate (toReturn st') <> None)
  /\ (exists more, calls st' = calls st ++ more).

(** The page handed to the filter last, and the date kept from it. *)
Definition lookBackInvariant {World : Type} (st : Locals World) : Prop :=
  match lastFiltered (calls st) with
  | None => lastLookBackDate (toReturn st) = None
  | Some r =>
      hasHits r /\ lastLookBackDate (toReturn st) = lookBackDate r
  end.

(** The cursors recorded are absent for the first [k] fetches and present
    for all others; once one is present, [sortId] is. *)
Definition cursorInvariant {World : Type} (st : Locals World) : Prop :=
  exists (k : nat) (present : list (option string)),
    cursors (calls st) = repeat None k ++ present
    /\ Forall (fun c => c <> None) present
    /\ (present <> [] -> sortId st <> None).

(** One search duration on record for each page fetch on record. *)
Definition durationsComplete {World : Type} (st : Locals World) : Prop :=
  List.length (searchAfterTimes (toReturn st))
  = List.length (cursors (calls st)).

(** At most one page fetch on record lacks its duration. *)
Definition durationsAlmostComplete {World : Type} (st : Locals World)
    : Prop :=
  (List.length (searchAfterTimes (toReturn st))
   <= List.length (cursors (calls st))
   <= S (List.length (searchAfterTimes (toReturn st))))%nat.

(** ** A concrete backend

    An in-memory search backend, exception filter and bulk writer, against
    which the controller can be run. The world is the number of calls
    served. *)

Module Demo.

Local Open Scope string_scope.

(** A hit with a two-field sort array. *)
Definition doc (n : string) : SignalHit :=
  mkHit ("doc-" ++ n) ("2020-09-01T00:00:00." ++ n ++ "Z") (Some [n; "tie"]).

(** A hit without a sort array. *)
Definition unsortedDoc (n : string) : SignalHit :=
  mkHit ("doc-" ++ n) ("2020-09-01T00:00:00." ++ n ++ "Z") None.

Definition firstPage : list SignalHit :=
  map doc ["1"; "2"; "3"; "4"; "5"; "6"; "7"; "8"].

Definition secondPage : list SignalHit :=
  [doc "9"; mkHit "listed" "2020-09-01T00:00:00.10Z" (Some ["10"; "tie"]);
   unsortedDoc "11"].

Definition flakyPage : list SignalHit :=
  [mkHit "rejected" "2020-09-01T00:00:00.0Z" (Some ["r"]); doc "1"].

(** The pages of a range: the range starting at "flaky" begins with two
    documents the writer will object to; any other range holds eleven
    documents, served in two pages. *)
Definition pageAfter (range : string) (cursor : option string)
    : list SignalHit :=
  match cursor with
  | None => if range =? "flaky" then flakyPage else firstPage
  | Some c => if c =? "8" then secondPage else []
  end.

(** The search backend: the range starting at "down" cannot be searched,
    the range starting at "quiet" reports a total of 0 yet returns a hit. *)
Definition search (p : SingleSearchAfterParams) (w : nat)
    : nat * Outcome (SignalSearchResponse * string) :=
  (S w,
   if search_from p =? "down" then
     Thrown "Error: search_phase_execution_exception"
   else if search_from p =? "quiet" then
     Ok (mkResponse (TotalNumber 0) [doc "0"], "2")
   else
     Ok (mkResponse (TotalObject 11)
           (pageAfter (search_from p) (searchAfterSortId p)), "4")).

(** The same backend, returning no more hits than the page size asked
    for. *)
Definition searchSized (p : SingleSearchAfterParams) (w : nat)
    : nat * Outcome (SignalSearchResponse * string) :=
  match search p w with
  | (w', Ok (r, d)) =>
      (w', Ok (mkResponse (total r) (JS.slice0 (hits r) (search_pageSize p)),
               d))
  | thrown => thrown
  end.

(** The exception filter drops the hit with id "listed" and hands back a
    response of its own. *)
Definition filterAgainstList (r : SignalSearchResponse) (w : nat)
    : nat * Outcome FilterResult :=
  let kept := filter (fun h => negb (hit_id h =? "listed")) (hits r) in
  (S w,
   Ok (OwnObject
         (mkResponse (TotalNumber (Z.of_nat (List.length kept))) kept))).

(** A filter with no list to check against: it hands back the response it
    was given. *)
Definition filterNothing (r : SignalSearchResponse) (w : nat)
    : nat * Outcome FilterResult :=
  (S w, Ok SameObject).

(** The bulk writer creates every event offered, except one with id
    "rejected", for which it reports a failure without throwing. *)
Definition bulkCreate (r : SignalSearchResponse) (w : nat)
    : nat * Outcome SingleBulkCreateResult :=
  let accepted := filter (fun h => negb (hit_id h =? "rejected")) (hits r) in
  let all := Nat.eqb (List.length accepted) (List.length (hits r)) in
  (S w,
   Ok (mkBulkResult (Some "7") (Z.of_nat (List.length accepted)) all
         (if all then []
          else ["bulk item rejected"; "bulk item rejected"]))).

(** A bulk writer whose index cannot be written to: it resolves, reports
    the failure and creates nothing. *)
Definition bulkCreateUnavailable (r : SignalSearchResponse) (w : nat)
    : nat * Outcome SingleBulkCreateResult :=
  (S w, Ok (mkBulkResult None 0 false ["bulk index unavailable"])).

Definition services : Services nat :=
  mkServices search filterAgainstList bulkCreate.

(** The same backend for a rule without exception lists. *)
Definition servicesWithoutLists : Services nat :=
  mkServices search filterNothing bulkCreate.

(** The same, with the index unavailable. *)
Definition servicesWithoutListsOrIndex : Services nat :=
  mkServices searchSized filterNothing bulkCreateUnavailable.

(** Two windows; [thisWeek], last in the array, is popped first. *)
Definition lastWeek : SignalTimeTuple := window "now-7d" "now-14d" 10.
Definition thisWeek : SignalTimeTuple := window "now" "now-7d" 8.

(** A window left with a budget of half a signal. *)
Definition halfWindow : SignalTimeTuple := window "now" "now-7d" (1 # 2).

(** The first page fetch on record for the range starting at [range]. *)
Fixpoint firstSearchOf (range : string) (cs : list Call)
    : option SingleSearchAfterParams :=
  match cs with
  | [] => None
  | CallSearchAfter p :: rest =>
      if search_from p =? range then Some p else firstSearchOf range rest
  | _ :: rest => firstSearchOf range rest
  end.

End Demo.

(** *** States of the runs against the concrete backend *)

(** The state in which the window popped first, [thisWeek], was left. *)
Definition afterThisWeek : Locals nat :=
  fst (searchAfterAndBulkCreate Demo.services 8 1 [Some Demo.thisWeek] 0%nat).

(** The first iteration on the range starting at "flaky", up to the bulk
    create. *)
Definition flakyTuple : SignalTimeTuple := window "now" "flaky" 10.

Definition flakyStart : Locals nat :=
  with_signalsCreatedCount 0 (initialLocals 0%nat).

Definition flakyResponse : SignalSearchResponse :=
  mkResponse (TotalObject 11) Demo.flakyPage.

Definition flakyFiltered : SignalSearchResponse :=
  mkResponse (TotalNumber 2) Demo.flakyPage.

Definition flakyWrite : SingleBulkCreateResult :=
  mkBulkResult (Some "7"%string) 1 false
    ["bulk item rejected"%string; "bulk item rejected"%string].

Definition flakyWritten : Locals nat :=
  bulkCreated (truncateToBudget flakyTuple 0 flakyFiltered) 3%nat flakyWrite
    (filtered flakyResponse 2%nat
       (searched (searchParams 8 flakyTuple "flaky" "now" flakyStart) 1%nat
          "4" flakyStart)).

(** A window capped at 20 over the range of eleven documents: the state
    after its first page, and its second page up to the bulk create (the
    hit with id "listed" is filtered out on the way). *)
Definition wideTuple : SignalTimeTuple := window "now-7d" "now-14d" 20.

Definition wideStart : Locals nat := initialLocals 0%nat.

Definition wideAfterFirstPage : Locals nat :=
  fst (pageBody Demo.services 8 wideTuple
         (with_signalsCreatedCount 0 wideStart)).

Definition wideSecondResponse : SignalSearchResponse :=
  mkResponse (TotalObject 11) Demo.secondPage.

Definition wideSecondFiltered : SignalSearchResponse :=
  mkResponse (TotalNumber 2) [Demo.doc "9"; Demo.unsortedDoc "11"].

Definition wideSecondWrite : SingleBulkCreateResult :=
  mkBulkResult (Some "7"%string) 2 true [].

Definition wideAfterSecondWrite : Locals nat :=
  bulkCreated (truncateToBudget wideTuple 8 wideSecondFiltered) 6%nat
    wideSecondWrite
    (filtered wideSecondResponse 5%nat
       (searched
          (searchParams 8 wideTuple "now-14d" "now-7d" wideAfterFirstPage)
          4%nat "4" wideAfterFirstPage)).

(** The first page of that window, up to the bulk create. *)
Definition firstResponse : SignalSearchResponse :=
  mkResponse (TotalObject 11) Demo.firstPage.

Definition firstFiltered : SignalSearchResponse :=
  mkResponse (TotalNumber 8) Demo.firstPage.

Definition firstWrite : SingleBulkCreateResult :=
  mkBulkResult (Some "7"%string) 8 true [].

Definition wideAfterFirstWrite : Locals nat :=
  bulkCreated (truncateToBudget wideTuple 0 firstFiltered) 3%nat firstWrite
    (filtered firstResponse 2%nat
       (searched
          (searchParams 8 wideTuple "now-14d" "now-7d"
             (with_signalsCreatedCount 0 wideStart))
          1%nat "4" (with_signalsCreatedCount 0 wideStart))).

(** ** Facts about the JavaScript helpers *)

Module JSFacts.
Import JS.

Lemma Qlt_bool_iff (a b : Q) : Qlt_bool a b = true <-> a < b.
Proof.
  unfold Qlt_bool. rewrite negb_true_iff.
  split; intro H.
  - apply Qnot_le_lt. intro Hle. apply Qle_bool_iff in Hle. congruence.
  - destruct (Qle_bool b a) eqn:E; [|reflexivity].
    apply Qle_bool_iff in E. exfalso. apply (Qlt_not_le _ _ H E).
Qed.

Lemma Qlt_bool_false_iff (a b : Q) : Qlt_bool a b = false <-> b <= a.
Proof.
  unfold Qlt_bool. rewrite negb_false_iff. apply Qle_bool_iff.
Qed.

Lemma existsb_eqb_In (x : string) (s : list string) :
  existsb (String.eqb x) s = true <-> In x s.
Proof.
  rewrite existsb_exists. split.
  - intros [y [Hin Heq]]. apply String.eqb_eq in Heq. now subst.
  - intro Hin. exists x. split; [assumption | apply String.eqb_refl].
Qed.

Lemma Set_add_NoDup (s : list string) (x : string) :
  NoDup s -> NoDup (Set_add s x).
Proof.
  intro Hs. unfold Set_add.
  destruct (existsb (String.eqb x) s) eqn:E; [assumption|].
  apply NoDup_app; [assumption | repeat constructor; intros [] |].
  intros y Hy [Hx|[]]. subst y.
  apply existsb_eqb_In in Hy. congruence.
Qed.

Lemma Set_add_In (s : list string) (x y : string) :
  In y (Set_add s x) <-> In y s \/ y = x.
Proof.
  unfold Set_add. destruct (existsb (String.eqb x) s) eqn:E.
  - apply existsb_eqb_In in E. split; [tauto|]. intros [H|H]; subst; auto.
  - rewrite in_app_iff. simpl. split; intros [H|H]; auto.
    + destruct H as [H|[]]. auto.
Qed.

Lemma fold_Set_add_NoDup (xs acc : list string) :
  NoDup acc -> NoDup (fold_left Set_add xs acc).
Proof.
  revert acc. induction xs as [|x xs IH]; intros acc Hacc; simpl.
  - assumption.
  - apply IH. now apply Set_add_NoDup.
Qed.

Lemma fold_Set_add_In (xs acc : list string) (y : string) :
  In y (fold_left Set_add xs acc) <-> In y acc \/ In y xs.
Proof.
  revert acc. induction xs as [|x xs IH]; intros acc; simpl.
  - tauto.
  - rewrite IH, Set_add_In. split; intros H; intuition congruence.
Qed.

(** A [Set] built from any array has no repeated value. *)
Lemma newSet_NoDup (xs : list string) : NoDup (newSet xs).
Proof. apply fold_Set_add_NoDup. constructor. Qed.

(** It holds exactly the values of the array. *)
Lemma newSet_In (xs : list string) (y : string) :
  In y (newSet xs) <-> In y xs.
Proof. unfold newSet. rewrite fold_Set_add_In. simpl. tauto. Qed.

Lemma fold_Set_add_app (xs ys acc : list string) :
  fold_left Set_add (xs ++ ys) acc
  = fold_left Set_add ys (fold_left Set_add xs acc).
Proof. apply fold_left_app. Qed.

Lemma fold_Set_add_prefix (xs acc : list string) :
  NoDup (acc ++ xs) -> fold_left Set_add xs acc = acc ++ xs.
Proof.
  revert acc. induction xs as [|x xs IH]; intros acc Hnd; simpl.
  - now rewrite app_nil_r.
  - assert (Hx : existsb (String.eqb x) acc = false).
    { destruct (existsb (String.eqb x) acc) eqn:E; [|reflexivity].
      apply existsb_eqb_In in E.
      apply NoDup_remove_2 in Hnd. exfalso. apply Hnd.
      apply in_or_app. now left. }
    unfold Set_add at 2. rewrite Hx.
    replace (acc ++ x :: xs) with ((acc ++ [x]) ++ xs)
      by (now rewrite <- app_assoc).
    apply IH. now rewrite <- app_assoc.
Qed.

(** Spreading a duplicate-free array into a [Set] and back changes
    nothing. *)
Lemma newSet_id (xs : list string) : NoDup xs -> newSet xs = xs.
Proof. intro H. unfold newSet. now rewrite fold_Set_add_prefix. Qed.

(** Adding one value to a duplicate-free array through a [Set]. *)
Lemma newSet_snoc (xs : list string) (e : string) :
  NoDup xs ->
  newSet (xs ++ [e]) = if existsb (String.eqb e) xs then xs else xs ++ [e].
Proof.
  intro H. unfold newSet. rewrite fold_Set_add_app.
  fold (newSet xs). rewrite (newSet_id H). reflexivity.
Qed.

Lemma ToIntegerOrInfinity_pos (q : Q) :
  0 <= q -> ToIntegerOrInfinity q = Qfloor q.
Proof.
  intro H. unfold ToIntegerOrInfinity.
  apply Qle_bool_iff in H. now rewrite H.
Qed.

(** [slice(0, end)] with a non-negative [end] keeps the first
    [floor(end)] elements. *)
Lemma slice0_firstn {A : Type} (xs : list A) (end_ : Q) :
  0 <= end_ -> slice0 xs end_ = firstn (Z.to_nat (Qfloor end_)) xs.
Proof.
  intro H. unfold slice0. rewrite (ToIntegerOrInfinity_pos H).
  assert (Hf : (0 <= Qfloor end_)%Z).
  { change 0%Z with (Qfloor 0). now apply Qfloor_resp_le. }
  destruct (Z.ltb_spec (Qfloor end_) 0); [lia|].
  destruct (Z.le_ge_cases (Qfloor end_) (Z.of_nat (List.length xs)))
    as [Hle|Hge].
  - now rewrite Z.min_l.
  - rewrite Z.min_r by assumption. rewrite Nat2Z.id.
    rewrite firstn_all. symmetry. apply firstn_all2. lia.
Qed.

Lemma inject_Z_sub (a b : Z) :
  inject_Z (a - b) == inject_Z a - inject_Z b.
Proof.
  unfold Z.sub, Qminus. now rewrite inject_Z_plus, inject_Z_opp.
Qed.

Lemma Qfloor_minus_Z (q : Q) (z : Z) :
  Qfloor (q - inject_Z z) = (Qfloor q - z)%Z.
Proof.
  assert (H1 : inject_Z (Qfloor q) <= q) by apply Qfloor_le.
  assert (H2 : q < inject_Z (Qfloor q + 1)) by apply Qlt_floor.
  rewrite inject_Z_plus in H2.
  assert (L : (Qfloor q - z <= Qfloor (q - inject_Z z))%Z).
  { rewrite <- (Qfloor_Z (Qfloor q - z)). apply Qfloor_resp_le.
    rewrite inject_Z_sub. lra. }
  assert (U : (Qfloor (q - inject_Z z) < Qfloor q - z + 1)%Z).
  { apply Z.lt_nge. intro Hc.
    assert (H3 : inject_Z (Qfloor (q - inject_Z z)) <= q - inject_Z z)
      by apply Qfloor_le.
    assert (H4 : inject_Z (Qfloor q - z + 1)
                 <= inject_Z (Qfloor (q - inject_Z z))).
    { rewrite <- Zle_Qle. exact Hc. }
    rewrite inject_Z_plus, inject_Z_sub in H4. lra. }
  lia.
Qed.

(** The helpers on small inputs. *)
Example newSet_example :
  newSet ["a"; "b"; "a"; "c"; "b"]%string = ["a"; "b"; "c"]%string.
Proof. reflexivity. Qed.

Example slice0_example :
  slice0 [1; 2; 3; 4]%Z (5 # 2) = [1; 2]%Z
  /\ slice0 [1; 2; 3; 4]%Z 9 = [1; 2; 3; 4]%Z
  /\ slice0 [1; 2; 3; 4]%Z (- (1)) = [1; 2; 3]%Z.
Proof. repeat split. Qed.

Example lastElement_example :
  lastElement [1; 2; 3]%Z = Some 3%Z /\ lastElement (@nil Z) = None.
Proof. split; reflexivity. Qed.

End JSFacts.

(** Line 137 on a fractional and on a large [maxSignals]. *)
Example pageSizeArg_example :
  pageSizeArg 8 (mkTuple None None (5 # 2)) = 3
  /\ pageSizeArg 8 (mkTuple None None 100) = 8.
Proof. split; reflexivity. Qed.

(** ** One iteration of the page loop, step by step *)

Section Steps.

Variable World : Type.
Variable services : Services World.
Variable pageSize : Q.

Lemma hasHits_test (searchResult : SignalSearchResponse) :
  hasHits searchResult ->
  (totalHits searchResult =? 0)%Z
  || Nat.eqb (List.length (hits searchResult)) 0 = false.
Proof.
  intros [Ht Hh]. apply orb_false_iff. split.
  - now apply Z.eqb_neq.
  - apply Nat.eqb_neq. destruct (hits searchResult); [congruence|discriminate].
Qed.

Lemma noHits_test (searchResult : SignalSearchResponse) :
  totalHits searchResult = 0%Z \/ hits searchResult = [] ->
  (totalHits searchResult =? 0)%Z
  || Nat.eqb (List.length (hits searchResult)) 0 = true.
Proof.
  intros [H|H]; rewrite H; [reflexivity | apply orb_true_r].
Qed.

Lemma nonempty_test {A : Type} (xs : list A) :
  xs <> [] -> negb (Nat.eqb (List.length xs) 0) = true.
Proof. destruct xs; [congruence | reflexivity]. Qed.

Ltac run_body :=
  unfold pageBody, bulkCreateStep, advanceSortId, bind, get, modify, await,
    toISOString, ret, throw, window, searchParams in *;
  simpl in *.

Section OneIteration.

Variables (toIso fromIso : string) (m : Q).
Variable st : Locals World.

Local Abbreviation tuple := (window toIso fromIso m).
Local Abbreviation params := (searchParams pageSize tuple fromIso toIso st).

(** The page fetch throws. *)
Lemma pageBody_search_thrown (w1 : World) (exc : string) :
  singleSearchAfter services params (world st) = (w1, Thrown exc) ->
  pageBody services pageSize tuple st = (searchFailed params w1 st, Thrown exc).
Proof.
  intro Hs. run_body. rewrite Hs. reflexivity.
Qed.

(** The page fetch reports no hits: the body breaks right after pushing the
    search duration. *)
Lemma pageBody_no_hits (w1 : World) (searchResult : SignalSearchResponse)
    (searchDuration : string) :
  singleSearchAfter services params (world st)
  = (w1, Ok (searchResult, searchDuration)) ->
  totalHits searchResult = 0%Z \/ hits searchResult = [] ->
  pageBody services pageSize tuple st
  = (searched params w1 searchDuration st, Ok Break).
Proof.
  intros Hs Hz. apply noHits_test in Hz. run_body.
  rewrite Hs. simpl. rewrite Hz. reflexivity.
Qed.

(** The filter throws. *)
Lemma pageBody_filter_thrown (w1 w2 : World)
    (searchResult : SignalSearchResponse) (searchDuration exc : string) :
  singleSearchAfter services params (world st)
  = (w1, Ok (searchResult, searchDuration)) ->
  hasHits searchResult ->
  filterEventsAgainstList services searchResult w1 = (w2, Thrown exc) ->
  pageBody services pageSize tuple st
  = (filtered searchResult w2 (searched params w1 searchDuration st),
     Thrown exc).
Proof.
  intros Hs Hh Hf. apply hasHits_test in Hh. run_body.
  rewrite Hs. simpl. rewrite Hh. simpl. rewrite Hf. reflexivity.
Qed.

(** Nothing is left after filtering: no bulk create, straight to the
    cursor, read from the page as fetched. *)
Lemma pageBody_skipped (w1 w2 : World)
    (searchResult : SignalSearchResponse) (filterResult : FilterResult)
    (searchDuration : string) :
  singleSearchAfter services params (world st)
  = (w1, Ok (searchResult, searchDuration)) ->
  hasHits searchResult ->
  filterEventsAgainstList services searchResult w1 = (w2, Ok filterResult) ->
  hits (eventsOf searchResult filterResult) = [] ->
  pageBody services pageSize tuple st
  = advanceSortId
      (pageAtCursor tuple (signalsCreatedCount st) searchResult filterResult)
      (filtered searchResult w2 (searched params w1 searchDuration st)).
Proof.
  intros Hs Hh Hf He.
  assert (Hpage : searchResultAfter searchResult filterResult
                    (eventsOf searchResult filterResult)
                  = pageAtCursor tuple (signalsCreatedCount st) searchResult
                      filterResult).
  { destruct filterResult as [|own]; [|reflexivity].
    destruct Hh as [_ Hne]. simpl in He. congruence. }
  apply hasHits_test in Hh. run_body.
  rewrite Hs. simpl. rewrite Hh. simpl. rewrite Hf. simpl.
  rewrite He. simpl. now rewrite <- Hpage.
Qed.

(** The bulk create throws. *)
Lemma pageBody_bulk_thrown (w1 w2 w3 : World)
    (searchResult : SignalSearchResponse) (filterResult : FilterResult)
    (searchDuration exc : string) :
  singleSearchAfter services params (world st)
  = (w1, Ok (searchResult, searchDuration)) ->
  hasHits searchResult ->
  filterEventsAgainstList services searchResult w1 = (w2, Ok filterResult) ->
  hits (eventsOf searchResult filterResult) <> [] ->
  singleBulkCreate services
    (truncateToBudget tuple (signalsCreatedCount st)
       (eventsOf searchResult filterResult)) w2
  = (w3, Thrown exc) ->
  pageBody services pageSize tuple st
  = (bulkFailed
       (truncateToBudget tuple (signalsCreatedCount st)
          (eventsOf searchResult filterResult)) w3
       (filtered searchResult w2 (searched params w1 searchDuration st)),
     Thrown exc).
Proof.
  intros Hs Hh Hf Hne Hb. apply hasHits_test in Hh.
  apply nonempty_test in Hne. run_body.
  rewrite Hs. simpl. rewrite Hh. simpl. rewrite Hf. simpl.
  rewrite Hne. simpl. rewrite Hb. reflexivity.
Qed.

(** The bulk create resolves: on to the cursor, read from the page as the
    cut of line 196 left it. *)
Lemma pageBody_written (w1 w2 w3 : World)
    (searchResult : SignalSearchResponse) (filterResult : FilterResult)
    (searchDuration : string) (b : SingleBulkCreateResult) :
  singleSearchAfter services params (world st)
  = (w1, Ok (searchResult, searchDuration)) ->
  hasHits searchResult ->
  filterEventsAgainstList services searchResult w1 = (w2, Ok filterResult) ->
  hits (eventsOf searchResult filterResult) <> [] ->
  singleBulkCreate services
    (truncateToBudget tuple (signalsCreatedCount st)
       (eventsOf searchResult filterResult)) w2
  = (w3, Ok b) ->
  pageBody services pageSize tuple st
  = advanceSortId
      (pageAtCursor tuple (signalsCreatedCount st) searchResult filterResult)
      (bulkCreated
         (truncateToBudget tuple (signalsCreatedCount st)
            (eventsOf searchResult filterResult)) w3 b
         (filtered searchResult w2 (searched params w1 searchDuration st))).
Proof.
  intros Hs Hh Hf Hne Hb. apply hasHits_test in Hh.
  apply nonempty_test in Hne. run_body.
  rewrite Hs. simpl. rewrite Hh. simpl. rewrite Hf. simpl.
  rewrite Hne. simpl. rewrite Hb. simpl.
  destruct filterResult; reflexivity.
Qed.

End OneIteration.

(** A page with hits has a last hit. *)
Lemma hasHits_lastElement (searchResult : SignalSearchResponse) :
  hits searchResult <> [] ->
  exists lastHit, JS.lastElement (hits searchResult) = Some lastHit.
Proof.
  intro H. unfold JS.lastElement.
  destruct (nth_error (hits searchResult)
              (List.length (hits searchResult) - 1)) eqn:E.
  - now exists s.
  - apply nth_error_None in E. destruct (hits searchResult); [congruence|].
    simpl in E. lia.
Qed.

(** The last hit carries a sort array with a first element. *)
Lemma advanceSortId_continue (searchResult : SignalSearchResponse)
    (lastHit : SignalHit) (first : string) (others : list string)
    (st : Locals World) :
  JS.lastElement (hits searchResult) = Some lastHit ->
  sort lastHit = Some (first :: others) ->
  advanceSortId searchResult st = (with_sortId (Some first) st, Ok Continue).
Proof.
  intros Hl Hs. unfold advanceSortId. rewrite Hl, Hs. reflexivity.
Qed.

(** The last hit carries no sort array, or an empty one. *)
Lemma advanceSortId_break (searchResult : SignalSearchResponse)
    (lastHit : SignalHit) (st : Locals World) :
  JS.lastElement (hits searchResult) = Some lastHit ->
  sort lastHit = None \/ sort lastHit = Some [] ->
  advanceSortId searchResult st = (st, Ok Break).
Proof.
  intros Hl [Hs|Hs]; unfold advanceSortId; rewrite Hl, Hs; reflexivity.
Qed.

Lemma pageBody_fails (toIso fromIso : string) (m : Q) (st stF : Locals World)
    (exc : string) :
  pageFails services pageSize toIso fromIso m st exc stF ->
  pageBody services pageSize (window toIso fromIso m) st = (stF, Thrown exc).
Proof.
  intros [w1 e Hs | w1 w2 sr d e Hs Hh Hf | w1 w2 w3 sr fe d e Hs Hh Hf Hne Hb].
  - now apply pageBody_search_thrown.
  - now apply pageBody_filter_thrown.
  - now apply pageBody_bulk_thrown.
Qed.

Lemma pageBody_processed (toIso fromIso : string) (m : Q)
    (st stW : Locals World) (searchResult : SignalSearchResponse)
    (filterResult : FilterResult) (wrote : option SingleBulkCreateResult) :
  pageProcessed services pageSize toIso fromIso m st searchResult
    filterResult wrote stW ->
  pageBody services pageSize (window toIso fromIso m) st
  = advanceSortId
      (pageAtCursor (window toIso fromIso m) (signalsCreatedCount st)
         searchResult filterResult)
      stW.
Proof.
  intros [w1 w2 sr fe d Hs Hh Hf He | w1 w2 w3 sr fe d b Hs Hh Hf Hne Hb].
  - now apply pageBody_skipped.
  - now apply pageBody_written.
Qed.

Lemma pageProcessed_hasHits (toIso fromIso : string) (m : Q)
    (st stW : Locals World) (searchResult : SignalSearchResponse)
    (filterResult : FilterResult) (wrote : option SingleBulkCreateResult) :
  pageProcessed services pageSize toIso fromIso m st searchResult
    filterResult wrote stW ->
  hasHits searchResult.
Proof. now intros [? ? ? ? ? ? H | ? ? ? ? ? ? ? ? H]. Qed.

(** When the filter hands back a response of its own, line 243 reads the
    page as fetched. *)
Lemma pageAtCursor_own (tuple : SignalTimeTuple) (count : Z)
    (searchResult own : SignalSearchResponse) :
  pageAtCursor tuple count searchResult (OwnObject own) = searchResult.
Proof. reflexivity. Qed.

Lemma hasHits_dec (searchResult : SignalSearchResponse) :
  {totalHits searchResult = 0%Z \/ hits searchResult = []}
  + {hasHits searchResult}.
Proof.
  unfold hasHits.
  destruct (Z.eq_dec (totalHits searchResult) 0) as [Hz|Hz]; [now left; left|].
  destruct (hits searchResult) as [|h hs]; [now left; right|].
  right. split; [assumption | discriminate].
Qed.

Lemma pageBody_outcome (tuple : SignalTimeTuple) (st : Locals World) :
  BodyOutcome services pageSize tuple st (pageBody services pageSize tuple st).
Proof.
  destruct tuple as [[toIso|] [fromIso|] m];
    try (apply body_no_from; reflexivity);
    try (apply body_no_to; reflexivity).
  change (mkTuple (Some toIso) (Some fromIso) m) with (window toIso fromIso m).
  destruct (singleSearchAfter services
              (searchParams pageSize (window toIso fromIso m) fromIso toIso st)
              (world st))
    as [w1 [[sr d]|exc]] eqn:Hs.
  - destruct (hasHits_dec sr) as [Hz|Hh].
    + erewrite pageBody_no_hits by eassumption.
      now apply body_no_hits
        with (toIso := toIso) (fromIso := fromIso) (searchResult := sr).
    + destruct (filterEventsAgainstList services sr w1)
        as [w2 [fe|exc]] eqn:Hf.
      * destruct (hits (eventsOf sr fe)) as [|h hs] eqn:He.
        -- erewrite pageBody_skipped by eassumption.
           apply (body_processed (tuple := window toIso fromIso m)
                    (toIso := toIso) (fromIso := fromIso) (wrote := None)
                    eq_refl).
           now apply processed_without_write.
        -- assert (Hne : hits (eventsOf sr fe) <> [])
             by (rewrite He; discriminate).
           destruct (singleBulkCreate services
                       (truncateToBudget (window toIso fromIso m)
                          (signalsCreatedCount st) (eventsOf sr fe)) w2)
             as [w3 [b|exc]] eqn:Hb.
           ++ erewrite pageBody_written by eassumption.
              apply (body_processed (tuple := window toIso fromIso m)
                       (toIso := toIso) (fromIso := fromIso)
                       (wrote := Some b) eq_refl).
              now apply processed_with_write.
           ++ erewrite pageBody_bulk_thrown by eassumption.
              apply body_fails with (toIso := toIso) (fromIso := fromIso);
                [reflexivity|].
              now apply bulk_throws.
      * erewrite pageBody_filter_thrown by eassumption.
        apply body_fails with (toIso := toIso) (fromIso := fromIso);
          [reflexivity|].
        now apply filter_throws.
  - erewrite pageBody_search_thrown by eassumption.
    apply body_fails with (toIso := toIso) (fromIso := fromIso);
      [reflexivity|].
    now apply search_throws.
Qed.

(** Looking at the cursor changes nothing but [sortId]. *)
Lemma advanceSortId_frame (searchResult : SignalSearchResponse)
    (st : Locals World) :
  let st' := fst (advanceSortId searchResult st) in
  world st' = world st /\ calls st' = calls st
  /\ toReturn st' = toReturn st
  /\ signalsCreatedCount st' = signalsCreatedCount st.
Proof.
  unfold advanceSortId.
  destruct (JS.lastElement (hits searchResult)) as [lastHit|]; simpl;
    [|now auto].
  destruct (sort lastHit) as [[|first others]|]; simpl; now auto.
Qed.

(** *** The page loop around one iteration *)

Lemma belowBudget_test (tuple : SignalTimeTuple) (st : Locals World) :
  belowBudget tuple st ->
  JS.Qlt_bool (inject_Z (signalsCreatedCount st)) (maxSignals tuple) = true.
Proof. intro H. now apply JSFacts.Qlt_bool_iff. Qed.

Lemma pageLoop_continue (fuel : nat) (tuple : SignalTimeTuple)
    (st st' : Locals World) :
  belowBudget tuple st ->
  pageBody services pageSize tuple st = (st', Ok Continue) ->
  pageLoop services pageSize (S fuel) tuple st
  = pageLoop services pageSize fuel tuple st'.
Proof.
  intros Hg Hb. simpl. rewrite (belowBudget_test Hg), Hb. reflexivity.
Qed.

Lemma pageLoop_break (fuel : nat) (tuple : SignalTimeTuple)
    (st st' : Locals World) :
  belowBudget tuple st ->
  pageBody services pageSize tuple st = (st', Ok Break) ->
  pageLoop services pageSize (S fuel) tuple st = (st', LoopExit).
Proof.
  intros Hg Hb. simpl. rewrite (belowBudget_test Hg), Hb. reflexivity.
Qed.

Lemma pageLoop_thrown (fuel : nat) (tuple : SignalTimeTuple)
    (st st' : Locals World) (exc : string) :
  belowBudget tuple st ->
  pageBody services pageSize tuple st = (st', Thrown exc) ->
  pageLoop services pageSize (S fuel) tuple st = (catchBlock exc st', Return).
Proof.
  intros Hg Hb. simpl. rewrite (belowBudget_test Hg), Hb. reflexivity.
Qed.

Lemma pageLoop_budget_reached (fuel : nat) (tuple : SignalTimeTuple)
    (st : Locals World) :
  maxSignals tuple <= inject_Z (signalsCreatedCount st) ->
  pageLoop services pageSize fuel tuple st = (st, LoopExit).
Proof.
  intro H. apply JSFacts.Qlt_bool_false_iff in H.
  destruct fuel; simpl; rewrite H; reflexivity.
Qed.

Lemma pageLoop_pagesThrough (tuple : SignalTimeTuple)
    (st st' : Locals World) (n : nat) :
  pagesThrough services pageSize tuple st n st' ->
  forall fuel,
    pageLoop services pageSize (n + fuel) tuple st
    = pageLoop services pageSize fuel tuple st'.
Proof.
  induction 1 as [st|st st1 st2 n Hg Hb _ IH]; intro fuel.
  - reflexivity.
  - change (S n + fuel)%nat with (S (n + fuel)).
    rewrite (pageLoop_continue _ Hg Hb). apply IH.
Qed.

(** *** The window loop around the page loop *)

Lemma windowLoop_window (fuel : nat) (toIso fromIso : string) (m : Q)
    (rest : list (option SignalTimeTuple)) (st : Locals World) :
  windowLoop services pageSize fuel (Some (window toIso fromIso m) :: rest) st
  = match pageLoop services pageSize fuel (window toIso fromIso m)
            (with_signalsCreatedCount 0 st) with
    | (st', LoopExit) => windowLoop services pageSize fuel rest st'
    | (st', exit) => (st', exit)
    end.
Proof. reflexivity. Qed.

(** The page loop of a window is left normally after [n] full pages: the
    window loop goes on to the next tuple. *)
Lemma windowLoop_next_window (fuel n : nat) (toIso fromIso : string) (m : Q)
    (rest : list (option SignalTimeTuple)) (st0 st st' : Locals World) :
  pagesThrough services pageSize (window toIso fromIso m)
    (with_signalsCreatedCount 0 st0) n st ->
  pageLoop services pageSize (S fuel) (window toIso fromIso m) st
  = (st', LoopExit) ->
  windowLoop services pageSize (n + S fuel)
    (Some (window toIso fromIso m) :: rest) st0
  = windowLoop services pageSize (n + S fuel) rest st'.
Proof.
  intros Hp Hl. rewrite windowLoop_window.
  rewrite (pageLoop_pagesThrough Hp), Hl. reflexivity.
Qed.

(** The page loop of a window returns early after [n] full pages: so does
    the window loop, whatever tuples are left. *)
Lemma windowLoop_returns (fuel n : nat) (toIso fromIso : string) (m : Q)
    (rest : list (option SignalTimeTuple)) (st0 st st' : Locals World) :
  pagesThrough services pageSize (window toIso fromIso m)
    (with_signalsCreatedCount 0 st0) n st ->
  pageLoop services pageSize (S fuel) (window toIso fromIso m) st
  = (st', Return) ->
  windowLoop services pageSize (n + S fuel)
    (Some (window toIso fromIso m) :: rest) st0
  = (st', Return).
Proof.
  intros Hp Hl. rewrite windowLoop_window.
  rewrite (pageLoop_pagesThrough Hp), Hl. reflexivity.
Qed.

Lemma windowLoop_app (fuel : nat) (done todo : list (option SignalTimeTuple))
    (st : Locals World) :
  windowLoop services pageSize fuel (done ++ todo) st
  = match windowLoop services pageSize fuel done st with
    | (st', LoopExit) => windowLoop services pageSize fuel todo st'
    | (st', exit) => (st', exit)
    end.
Proof.
  revert st. induction done as [|[tuple|] done IH]; intro st; simpl.
  - reflexivity.
  - destruct (isNull (to tuple) || isNull (from tuple)); [reflexivity|].
    destruct (pageLoop services pageSize fuel tuple
                (with_signalsCreatedCount 0 st)) as [st' []];
      [reflexivity | apply IH | reflexivity].
  - reflexivity.
Qed.

Lemma run_after_windowsDone (fuel : nat)
    (later earlier : list (option SignalTimeTuple)) (w : World)
    (st : Locals World) :
  windowsDone services pageSize fuel earlier w st ->
  searchAfterAndBulkCreate services pageSize fuel (later ++ earlier) w
  = windowLoop services pageSize fuel (rev later) st.
Proof.
  intro H. unfold searchAfterAndBulkCreate.
  rewrite rev_app_distr, windowLoop_app, H. reflexivity.
Qed.

Lemma run_at_window (fuel : nat) (later earlier : list (option SignalTimeTuple))
    (tuple : option SignalTimeTuple) (w : World) (st : Locals World) :
  windowsDone services pageSize fuel earlier w st ->
  searchAfterAndBulkCreate services pageSize fuel
    (later ++ tuple :: earlier) w
  = windowLoop services pageSize fuel (tuple :: rev later) st.
Proof.
  intro H.
  change (later ++ tuple :: earlier) with (later ++ [tuple] ++ earlier).
  rewrite app_assoc, (run_after_windowsDone (later ++ [tuple]) H).
  now rewrite rev_app_distr.
Qed.

End Steps.

(** ** Invariants of the loops *)

Section Invariants.

Variable World : Type.
Variable services : Services World.
Variable pageSize : Q.

(** Case analysis on one iteration of the page loop: [H] names the
    outcome. *)
Ltac body_cases tuple st H :=
  destruct (pageBody_outcome services pageSize tuple st)
    as [H | H
       | toIso fromIso exc stF _ H
       | toIso fromIso w1 searchResult searchDuration _ H _
       | toIso fromIso searchResult filterResult wrote stW _ H].

Ltac frame :=
  match goal with
  | |- context [advanceSortId ?page ?s] =>
      destruct (advanceSortId_frame page s) as (_ & _ & -> & _)
  end.

(** *** The error list stays free of duplicates *)

Lemma pageBody_errors_NoDup (tuple : SignalTimeTuple) (st : Locals World) :
  NoDup (errors (toReturn st)) ->
  NoDup (errors (toReturn (fst (pageBody services pageSize tuple st)))).
Proof.
  intro H. body_cases tuple st Hc; simpl; try assumption.
  - destruct Hc; assumption.
  - frame.
    destruct Hc; simpl; [assumption | apply JSFacts.newSet_NoDup].
Qed.

Lemma pageLoop_errors_NoDup (fuel : nat) (tuple : SignalTimeTuple)
    (st : Locals World) :
  NoDup (errors (toReturn st)) ->
  NoDup (errors (toReturn (fst (pageLoop services pageSize fuel tuple st)))).
Proof.
  revert st. induction fuel as [|fuel IH]; intros st H; simpl.
  - destruct (JS.Qlt_bool _ _); assumption.
  - destruct (JS.Qlt_bool _ _); [|assumption].
    pose proof (pageBody_errors_NoDup tuple st H) as Hb.
    destruct (pageBody services pageSize tuple st) as [st' [[|]|exc]];
      simpl in *.
    + now apply IH.
    + assumption.
    + apply JSFacts.newSet_NoDup.
Qed.

Lemma windowLoop_errors_NoDup (fuel : nat)
    (stack : list (option SignalTimeTuple)) (st : Locals World) :
  NoDup (errors (toReturn st)) ->
  NoDup (errors (toReturn (fst (windowLoop services pageSize fuel stack st)))).
Proof.
  revert st. induction stack as [|[tuple|] stack IH]; intros st H; simpl.
  - assumption.
  - destruct (isNull (to tuple) || isNull (from tuple)).
    + apply JSFacts.newSet_NoDup.
    + pose proof (pageLoop_errors_NoDup fuel tuple
                    (with_signalsCreatedCount 0 st) H) as Hp.
      destruct (pageLoop services pageSize fuel tuple
                  (with_signalsCreatedCount 0 st)) as [st' []]; simpl in *;
        auto.
  - apply JSFacts.newSet_NoDup.
Qed.

Lemma pagesThrough_errors_NoDup (tuple : SignalTimeTuple)
    (st st' : Locals World) (n : nat) :
  pagesThrough services pageSize tuple st n st' ->
  NoDup (errors (toReturn st)) -> NoDup (errors (toReturn st')).
Proof.
  induction 1 as [st|st st1 st2 n Hg Hb _ IH]; intro H; [assumption|].
  apply IH. pose proof (pageBody_errors_NoDup tuple st H) as Hn.
  now rewrite Hb in Hn.
Qed.

Lemma windowsDone_errors_NoDup (fuel : nat)
    (earlier : list (option SignalTimeTuple)) (w : World)
    (st : Locals World) :
  windowsDone services pageSize fuel earlier w st ->
  NoDup (errors (toReturn st)).
Proof.
  unfold windowsDone. intro H.
  pose proof (windowLoop_errors_NoDup fuel (rev earlier) (initialLocals w))
    as Hn.
  rewrite H in Hn. apply Hn. constructor.
Qed.

(** *** The budget of a window *)

Lemma belowBudget_floor (count : Z) (m : Q) :
  inject_Z count < m -> (count <= Qfloor m)%Z.
Proof.
  intro H. rewrite <- (Qfloor_Z count). apply Qfloor_resp_le.
  now apply Qlt_le_weak.
Qed.

Lemma floor_below (count len : Z) (m : Q) :
  m < inject_Z (count + len) -> (Qfloor m - count < len)%Z.
Proof.
  intro H. assert (Hf : inject_Z (Qfloor m) <= m) by apply Qfloor_le.
  assert (Hlt : inject_Z (Qfloor m) < inject_Z (count + len)) by lra.
  rewrite <- Zlt_Qlt in Hlt. lia.
Qed.

(** When the filtered events would overshoot the budget, the events handed
    on are the first [floor(maxSignals) - count] of them. *)
Lemma truncateToBudget_over (tuple : SignalTimeTuple) (count : Z)
    (filteredEvents : SignalSearchResponse) :
  inject_Z count < maxSignals tuple ->
  maxSignals tuple
  < inject_Z (count + Z.of_nat (List.length (hits filteredEvents))) ->
  hits (truncateToBudget tuple count filteredEvents)
  = firstn (Z.to_nat (Qfloor (maxSignals tuple) - count))
      (hits filteredEvents)
  /\ Z.of_nat (List.length (hits (truncateToBudget tuple count filteredEvents)))
     = (Qfloor (maxSignals tuple) - count)%Z.
Proof.
  intros Hlt Hover. unfold truncateToBudget.
  rewrite (proj2 (JSFacts.Qlt_bool_iff _ _) Hover). simpl.
  rewrite JSFacts.slice0_firstn by lra.
  rewrite JSFacts.Qfloor_minus_Z. split; [reflexivity|].
  rewrite length_firstn.
  pose proof (belowBudget_floor Hlt). pose proof (floor_below _ _ Hover).
  lia.
Qed.

(** When they fit, they are handed on as they are. *)
Lemma truncateToBudget_within (tuple : SignalTimeTuple) (count : Z)
    (filteredEvents : SignalSearchResponse) :
  inject_Z (count + Z.of_nat (List.length (hits filteredEvents)))
  <= maxSignals tuple ->
  truncateToBudget tuple count filteredEvents = filteredEvents.
Proof.
  intro H. unfold truncateToBudget.
  now rewrite (proj2 (JSFacts.Qlt_bool_false_iff _ _) H).
Qed.

(** Either way the events handed on fit the budget that is left. *)
Lemma truncateToBudget_fits (tuple : SignalTimeTuple) (count : Z)
    (filteredEvents : SignalSearchResponse) :
  inject_Z count < maxSignals tuple ->
  inject_Z (count
            + Z.of_nat (List.length
                          (hits (truncateToBudget tuple count filteredEvents))))
  <= maxSignals tuple.
Proof.
  intro Hlt.
  destruct (Qlt_le_dec (maxSignals tuple)
              (inject_Z (count + Z.of_nat (List.length (hits filteredEvents)))))
    as [Hover|Hfit].
  - destruct (truncateToBudget_over tuple filteredEvents Hlt Hover) as [_ ->].
    replace (count + (Qfloor (maxSignals tuple) - count))%Z
      with (Qfloor (maxSignals tuple)) by lia.
    apply Qfloor_le.
  - now rewrite truncateToBudget_within.
Qed.

(** One iteration entered below the budget ends within it. *)
Lemma pageBody_within_budget (tuple : SignalTimeTuple) (st : Locals World) :
  truthfulWriter services ->
  belowBudget tuple st ->
  inject_Z (signalsCreatedCount (fst (pageBody services pageSize tuple st)))
  <= maxSignals tuple.
Proof.
  intros Htruth Hlt. unfold belowBudget in Hlt.
  body_cases tuple st Hc; simpl; try (now apply Qlt_le_weak).
  - destruct Hc; simpl; now apply Qlt_le_weak.
  - match goal with
    | |- context [advanceSortId ?page ?s] =>
        destruct (advanceSortId_frame page s) as (_ & _ & _ & ->)
    end.
    destruct Hc as [| w1 w2 w3 sr fe d b Hs Hh Hf Hne Hb]; simpl;
      [now apply Qlt_le_weak|].
    apply Htruth in Hb.
    pose proof (truncateToBudget_fits
                  (window toIso fromIso (maxSignals tuple))
                  (eventsOf sr fe) Hlt) as Hfit.
    simpl in Hfit.
    apply Qle_trans with (2 := Hfit). rewrite <- Zle_Qle. lia.
Qed.

(** One iteration adds the same number to both counters. *)
Lemma pageBody_counters (tuple : SignalTimeTuple) (st : Locals World) :
  let st' := fst (pageBody services pageSize tuple st) in
  (createdSignalsCount (toReturn st') - signalsCreatedCount st'
   = createdSignalsCount (toReturn st) - signalsCreatedCount st)%Z.
Proof.
  body_cases tuple st Hc; simpl; try reflexivity.
  - destruct Hc; reflexivity.
  - match goal with
    | |- context [advanceSortId ?page ?s] =>
        destruct (advanceSortId_frame page s) as (_ & _ & -> & ->)
    end.
    destruct Hc; simpl; lia.
Qed.

Lemma pageLoop_within_budget (fuel : nat) (tuple : SignalTimeTuple)
    (st : Locals World) :
  truthfulWriter services ->
  inject_Z (signalsCreatedCount st) <= maxSignals tuple ->
  inject_Z (signalsCreatedCount
              (fst (pageLoop services pageSize fuel tuple st)))
  <= maxSignals tuple.
Proof.
  intro Htruth. revert st. induction fuel as [|fuel IH]; intros st Hle; simpl.
  - destruct (JS.Qlt_bool _ _); assumption.
  - destruct (JS.Qlt_bool _ _) eqn:Hg; [|assumption].
    apply JSFacts.Qlt_bool_iff in Hg.
    pose proof (pageBody_within_budget Htruth Hg) as Hb.
    destruct (pageBody services pageSize tuple st) as [st' [[|]|exc]];
      simpl in *; auto.
Qed.

Lemma pageLoop_counters (fuel : nat) (tuple : SignalTimeTuple)
    (st : Locals World) :
  let st' := fst (pageLoop services pageSize fuel tuple st) in
  (createdSignalsCount (toReturn st') - signalsCreatedCount st'
   = createdSignalsCount (toReturn st) - signalsCreatedCount st)%Z.
Proof.
  revert st. induction fuel as [|fuel IH]; intro st; simpl.
  - destruct (JS.Qlt_bool _ _); reflexivity.
  - destruct (JS.Qlt_bool _ _); [|reflexivity].
    pose proof (pageBody_counters tuple st) as Hb.
    destruct (pageBody services pageSize tuple st) as [st' [[|]|exc]];
      simpl in *; try assumption.
    rewrite <- Hb. apply IH.
Qed.

(** What one window adds to [createdSignalsCount] is at most its
    [maxSignals]. *)
Lemma pageLoop_created (fuel : nat) (tuple : SignalTimeTuple)
    (st : Locals World) :
  truthfulWriter services ->
  0 <= maxSignals tuple ->
  let st' := fst (pageLoop services pageSize fuel tuple
                    (with_signalsCreatedCount 0 st)) in
  inject_Z (createdSignalsCount (toReturn st'))
  <= inject_Z (createdSignalsCount (toReturn st)) + maxSignals tuple.
Proof.
  intros Htruth Hnn st'.
  pose proof (pageLoop_within_budget fuel tuple
                (with_signalsCreatedCount 0 st) Htruth Hnn) as Hw.
  pose proof (pageLoop_counters fuel tuple (with_signalsCreatedCount 0 st))
    as Hc.
  fold st' in Hw, Hc. simpl in Hc.
  replace (createdSignalsCount (toReturn st'))
    with (createdSignalsCount (toReturn st) + signalsCreatedCount st')%Z
    by lia.
  rewrite inject_Z_plus. lra.
Qed.

Lemma sumMaxSignals_nonneg (tuples : list (option SignalTimeTuple)) :
  capsNonNegative tuples -> 0 <= sumMaxSignals tuples.
Proof.
  induction tuples as [|[tuple|] tuples IH]; intro H; simpl.
  - lra.
  - assert (0 <= maxSignals tuple) by (apply H; now left).
    assert (0 <= sumMaxSignals tuples)
      by (apply IH; intros t Ht; apply H; now right).
    lra.
  - apply IH. intros t Ht. apply H. now right.
Qed.

Lemma sumMaxSignals_app (xs ys : list (option SignalTimeTuple)) :
  sumMaxSignals (xs ++ ys) == sumMaxSignals xs + sumMaxSignals ys.
Proof.
  induction xs as [|[tuple|] xs IH]; simpl; [lra | rewrite IH; lra | exact IH].
Qed.

Lemma sumMaxSignals_rev (tuples : list (option SignalTimeTuple)) :
  sumMaxSignals (rev tuples) == sumMaxSignals tuples.
Proof.
  induction tuples as [|[tuple|] tuples IH]; simpl;
    [reflexivity | rewrite sumMaxSignals_app, IH; simpl; lra
    | rewrite sumMaxSignals_app, IH; simpl; lra].
Qed.

Lemma windowLoop_created (fuel : nat) (stack : list (option SignalTimeTuple))
    (st : Locals World) :
  truthfulWriter services ->
  capsNonNegative stack ->
  inject_Z (createdSignalsCount
              (toReturn (fst (windowLoop services pageSize fuel stack st))))
  <= inject_Z (createdSignalsCount (toReturn st)) + sumMaxSignals stack.
Proof.
  intro Htruth. revert st.
  induction stack as [|[tuple|] stack IH]; intros st Hnn.
  - simpl. lra.
  - assert (Hrest : capsNonNegative stack)
      by (intros t Ht; apply Hnn; now right).
    assert (Htuple : 0 <= maxSignals tuple) by (apply Hnn; now left).
    pose proof (sumMaxSignals_nonneg Hrest) as Hsum.
    simpl. destruct (isNull (to tuple) || isNull (from tuple)).
    + simpl. lra.
    + pose proof (pageLoop_created fuel tuple st Htruth Htuple) as Hp.
      simpl in Hp.
      destruct (pageLoop services pageSize fuel tuple
                  (with_signalsCreatedCount 0 st)) as [st' []]; simpl in *;
        try lra.
      specialize (IH st' Hrest). lra.
  - assert (Hrest : capsNonNegative stack)
      by (intros t Ht; apply Hnn; now right).
    pose proof (sumMaxSignals_nonneg Hrest) as Hsum.
    simpl. lra.
Qed.

End Invariants.

(** ** The signal budget *)

Section Budget.

Variable World : Type.
Variable services : Services World.
Variable pageSize : Q.

Lemma Qfloor_of_integer (q : Q) (k : Z) : q == inject_Z k -> Qfloor q = k.
Proof. intro H. rewrite (Qfloor_comp _ _ H). apply Qfloor_Z. Qed.

(** The bulk-create step records exactly one call, with the events cut to
    the budget. *)
Lemma bulkCreateStep_calls (tuple : SignalTimeTuple)
    (filteredEvents : SignalSearchResponse) (st : Locals World) :
  hits filteredEvents <> [] ->
  calls (fst (bulkCreateStep services tuple filteredEvents st))
  = calls st
    ++ [CallBulkCreate
          (truncateToBudget tuple (signalsCreatedCount st) filteredEvents)].
Proof.
  intro Hne. unfold bulkCreateStep, bind, get, modify, await.
  rewrite (nonempty_test Hne). simpl.
  destruct (singleBulkCreate services _ (world st)) as [w' [b|exc]];
    reflexivity.
Qed.

(** C1. Whenever the per-window count plus the number of filtered events
    exceeds the window's [maxSignals], the events passed to the bulk writer
    are the first [maxSignals - count] filtered events, no more and no fewer
    ([floor(maxSignals) - count] of them should [maxSignals] be fractional).
    Hence, with a writer that never reports more created items than it was
    offered, the per-window count never exceeds the window's [maxSignals] at
    any point of the page loop, and [createdSignalsCount] never exceeds the
    sum of [maxSignals] over the windows. *)
Theorem C1_created_within_maxSignals
    (fuel : nat) (totalToFromTuples : list (option SignalTimeTuple))
    (w : World) :
  truthfulWriter services ->
  capsNonNegative totalToFromTuples ->
  (forall (tuple : SignalTimeTuple) (st : Locals World)
          (filteredEvents : SignalSearchResponse),
      belowBudget tuple st ->
      hits filteredEvents <> [] ->
      maxSignals tuple
      < inject_Z (signalsCreatedCount st
                  + Z.of_nat (List.length (hits filteredEvents))) ->
      exists offered,
        calls (fst (bulkCreateStep services tuple filteredEvents st))
        = calls st ++ [CallBulkCreate offered]
        /\ hits offered
           = firstn (Z.to_nat (Qfloor (maxSignals tuple)
                               - signalsCreatedCount st))
               (hits filteredEvents)
        /\ Z.of_nat (List.length (hits offered))
           = (Qfloor (maxSignals tuple) - signalsCreatedCount st)%Z
        /\ (forall k : Z,
              maxSignals tuple == inject_Z k ->
              Z.of_nat (List.length (hits offered))
              = (k - signalsCreatedCount st)%Z))
  /\ (forall (tuple : SignalTimeTuple) (st : Locals World),
        In (Some tuple) totalToFromTuples ->
        inject_Z (signalsCreatedCount
                    (fst (pageLoop services pageSize fuel tuple
                            (with_signalsCreatedCount 0 st))))
        <= maxSignals tuple)
  /\ inject_Z (createdSignalsCount
                 (toReturn (fst (searchAfterAndBulkCreate services pageSize
                                   fuel totalToFromTuples w))))
     <= sumMaxSignals totalToFromTuples.
Proof.
  intros Htruth Hnn. split; [|split].
  - intros tuple st fe Hlt Hne Hover.
    exists (truncateToBudget tuple (signalsCreatedCount st) fe).
    destruct (truncateToBudget_over tuple fe Hlt Hover) as [Hhits Hlen].
    repeat split.
    + now apply bulkCreateStep_calls.
    + exact Hhits.
    + exact Hlen.
    + intros k Hk. rewrite Hlen. now rewrite (Qfloor_of_integer Hk).
  - intros tuple st Hin.
    apply pageLoop_within_budget; [assumption|]. simpl. now apply Hnn.
  - unfold searchAfterAndBulkCreate.
    assert (Hrev : capsNonNegative (rev totalToFromTuples)).
    { intros t Ht. apply Hnn. now apply in_rev. }
    pose proof (windowLoop_created pageSize fuel (initialLocals w) Htruth Hrev)
      as H.
    rewrite sumMaxSignals_rev in H. simpl in H.
    now rewrite Qplus_0_l in H.
Qed.

End Budget.

(** ** The calls made by one iteration *)

Section Calls.

Variable World : Type.
Variable services : Services World.
Variable pageSize : Q.

Lemma noSearch_nil : noSearch [].
Proof. intros p []. Qed.

Lemma noSearch_filter (r : SignalSearchResponse) (more : list Call) :
  noSearch more -> noSearch (CallFilter r :: more).
Proof. intros H p [Hp|Hp]; [discriminate | now apply (H p)]. Qed.

Lemma noSearch_bulk (r : SignalSearchResponse) (more : list Call) :
  noSearch more -> noSearch (CallBulkCreate r :: more).
Proof. intros H p [Hp|Hp]; [discriminate | now apply (H p)]. Qed.

Create HintDb calls.
#[local] Hint Resolve noSearch_nil noSearch_filter noSearch_bulk : calls.

Lemma pageFails_calls (toIso fromIso : string) (m : Q)
    (st stF : Locals World) (exc : string) :
  pageFails services pageSize toIso fromIso m st exc stF ->
  exists more,
    calls stF
    = calls st
      ++ CallSearchAfter
           (searchParams pageSize (window toIso fromIso m) fromIso toIso st)
         :: more
    /\ noSearch more.
Proof.
  intros [w1 e Hs | w1 w2 sr d e Hs Hh Hf | w1 w2 w3 sr fe d e Hs Hh Hf Hne Hb];
    simpl; eexists; (split; [ repeat rewrite <- app_assoc; reflexivity
                            | simpl; auto with calls ]).
Qed.

Lemma pageProcessed_calls (toIso fromIso : string) (m : Q)
    (st stW : Locals World) (searchResult : SignalSearchResponse)
    (filterResult : FilterResult) (wrote : option SingleBulkCreateResult) :
  pageProcessed services pageSize toIso fromIso m st searchResult
    filterResult wrote stW ->
  exists more,
    calls stW
    = calls st
      ++ CallSearchAfter
           (searchParams pageSize (window toIso fromIso m) fromIso toIso st)
         :: CallFilter searchResult :: more
    /\ noSearch more
    /\ (wrote = None -> more = []).
Proof.
  intros [w1 w2 sr fe d Hs Hh Hf He | w1 w2 w3 sr fe d b Hs Hh Hf Hne Hb];
    simpl; eexists;
    (split; [ repeat rewrite <- app_assoc; reflexivity
            | split; [ simpl; auto with calls
                     | try reflexivity; discriminate ] ]).
Qed.

(** An iteration for a tuple with both bounds begins with one page fetch,
    made with the cursor the iteration starts from, and makes no other. *)
Lemma pageBody_first_call (toIso fromIso : string) (m : Q)
    (st : Locals World) :
  exists more,
    calls (fst (pageBody services pageSize (window toIso fromIso m) st))
    = calls st
      ++ CallSearchAfter
           (mkSearchParams (sortId st) fromIso toIso
              (pageSizeArg pageSize (window toIso fromIso m)))
         :: more
    /\ noSearch more.
Proof.
  destruct (pageBody_outcome services pageSize (window toIso fromIso m) st)
    as [H | H
       | toIso' fromIso' exc stF E H
       | toIso' fromIso' w1 searchResult searchDuration E H _
       | toIso' fromIso' searchResult filterResult wrote stW E H];
    try discriminate; injection E as <- <-; simpl in *.
  - exact (pageFails_calls H).
  - exists []. split; [reflexivity | apply noSearch_nil].
  - match goal with
    | |- context [advanceSortId ?page ?s] =>
        destruct (advanceSortId_frame page s) as (_ & -> & _)
    end.
    destruct (pageProcessed_calls H) as (more & Hc & Hn & _).
    eexists. split; [exact Hc | auto with calls].
Qed.

(** Whatever the tuple, a page fetch recorded by an iteration is the one
    line 128 makes. *)
Lemma pageBody_search_calls (tuple : SignalTimeTuple) (st : Locals World)
    (p : SingleSearchAfterParams) :
  In (CallSearchAfter p) (calls (fst (pageBody services pageSize tuple st))) ->
  In (CallSearchAfter p) (calls st)
  \/ (from tuple = Some (search_from p)
      /\ to tuple = Some (search_to p)
      /\ searchAfterSortId p = sortId st
      /\ search_pageSize p = pageSizeArg pageSize tuple).
Proof.
  destruct tuple as [[toIso|] [fromIso|] m];
    try (intro H; left; exact H).
  change (mkTuple (Some toIso) (Some fromIso) m) with (window toIso fromIso m).
  destruct (pageBody_first_call toIso fromIso m st) as (more & -> & Hn).
  rewrite in_app_iff. simpl. intros [H|[H|H]].
  - now left.
  - right. injection H as <-. simpl. auto.
  - now apply Hn in H.
Qed.

End Calls.

(** ** The page size *)

Section PageSize.

Variable World : Type.
Variable services : Services World.
Variable pageSize : Q.

Lemma pageLoop_searchesFor (tuples : list (option SignalTimeTuple))
    (fuel : nat) (tuple : SignalTimeTuple) (st : Locals World) :
  In (Some tuple) tuples ->
  searchesFor pageSize tuples st ->
  searchesFor pageSize tuples (fst (pageLoop services pageSize fuel tuple st)).
Proof.
  intro Hin. revert st. induction fuel as [|fuel IH]; intros st H; simpl.
  - destruct (JS.Qlt_bool _ _); assumption.
  - destruct (JS.Qlt_bool _ _); [|assumption].
    assert (Hb : searchesFor pageSize tuples
                   (fst (pageBody services pageSize tuple st))).
    { intros p Hp. apply pageBody_search_calls in Hp.
      destruct Hp as [Hp|(Hf & Ht & _ & Hs)]; [now apply H|].
      now exists tuple. }
    destruct (pageBody services pageSize tuple st) as [st' [[|]|exc]];
      simpl in *; auto.
Qed.

Lemma windowLoop_searchesFor (tuples : list (option SignalTimeTuple))
    (fuel : nat) (stack : list (option SignalTimeTuple)) (st : Locals World) :
  (forall t, In t stack -> In t tuples) ->
  searchesFor pageSize tuples st ->
  searchesFor pageSize tuples
    (fst (windowLoop services pageSize fuel stack st)).
Proof.
  revert st. induction stack as [|[tuple|] stack IH]; intros st Hsub H; simpl.
  - assumption.
  - destruct (isNull (to tuple) || isNull (from tuple)); [assumption|].
    assert (Hp : searchesFor pageSize tuples
                   (fst (pageLoop services pageSize fuel tuple
                           (with_signalsCreatedCount 0 st)))).
    { apply pageLoop_searchesFor; [apply Hsub; now left | assumption]. }
    destruct (pageLoop services pageSize fuel tuple
                (with_signalsCreatedCount 0 st)) as [st' []]; simpl in *;
      try assumption.
    apply IH; [|assumption]. intros t Ht. apply Hsub. now right.
  - assumption.
Qed.

(** With a whole-number page size, line 137 computes the smaller of
    [maxSignals] rounded up and the page size. *)
Lemma pageSizeArg_min (tuple : SignalTimeTuple) (k : Z) :
  pageSize == inject_Z k ->
  pageSizeArg pageSize tuple
  == Qmin (inject_Z (Qceiling (maxSignals tuple))) pageSize.
Proof.
  intro Hk. unfold pageSizeArg, JS.Math_ceil.
  destruct (JS.Qlt_bool (maxSignals tuple) pageSize) eqn:E.
  - apply JSFacts.Qlt_bool_iff in E. symmetry. apply Q.min_l.
    rewrite Hk in *. rewrite <- Zle_Qle.
    assert (Hc : (Qceiling (maxSignals tuple) <= Qceiling (inject_Z k))%Z)
      by (apply Qceiling_resp_le; lra).
    now rewrite Qceiling_Z in Hc.
  - apply JSFacts.Qlt_bool_false_iff in E. symmetry. apply Q.min_r.
    pose proof (Qle_ceiling (maxSignals tuple)). lra.
Qed.

(** C3, as amended. For every page fetch of every run, the [pageSize]
    passed to the search backend is computed from the window's whole
    [maxSignals], not from what is left of it: it is [maxSignals] rounded up
    when [maxSignals] is below the configured page size, and the configured
    page size otherwise; for a whole-number page size, the minimum of
    [maxSignals] rounded up and the configured page size. *)
Theorem C3_pageSize_from_window_maxSignals
    (fuel : nat) (totalToFromTuples : list (option SignalTimeTuple))
    (w : World) (p : SingleSearchAfterParams) :
  In (CallSearchAfter p)
     (calls (fst (searchAfterAndBulkCreate services pageSize fuel
                    totalToFromTuples w))) ->
  exists tuple,
    In (Some tuple) totalToFromTuples
    /\ from tuple = Some (search_from p)
    /\ to tuple = Some (search_to p)
    /\ search_pageSize p
       = (if JS.Qlt_bool (maxSignals tuple) pageSize
          then inject_Z (Qceiling (maxSignals tuple))
          else pageSize)
    /\ (forall k : Z,
          pageSize == inject_Z k ->
          search_pageSize p
          == Qmin (inject_Z (Qceiling (maxSignals tuple))) pageSize).
Proof.
  intro Hp.
  assert (H : searchesFor pageSize totalToFromTuples
                (fst (searchAfterAndBulkCreate services pageSize fuel
                        totalToFromTuples w))).
  { apply windowLoop_searchesFor.
    - intros t Ht. now apply in_rev.
    - intros q []. }
  destruct (H p Hp) as (tuple & Hin & Hf & Ht & Hs).
  exists tuple. repeat split; try assumption.
  intros k Hk. rewrite Hs. now apply pageSizeArg_min with (k := k).
Qed.

End PageSize.

(** ** Leaving a window, failing a run *)

Section Control.

Variable World : Type.
Variable services : Services World.
Variable pageSize : Q.

(** C4. For every page of every window: if the total-hit count, read from
    either form of [hits.total], is 0, or the page holds no hits, then the
    iteration breaks right after the fetch (neither the filter nor the bulk
    writer is called) and the window loop goes on to the next tuple. Each
    of the two conditions is enough by itself; a response with total 0 and
    hits present is no exception. *)
Theorem C4_no_hits_ends_window
    (fuel n : nat) (toIso fromIso : string) (m : Q)
    (rest : list (option SignalTimeTuple)) (st0 st : Locals World)
    (w1 : World) (searchResult : SignalSearchResponse)
    (searchDuration : string) :
  pagesThrough services pageSize (window toIso fromIso m)
    (with_signalsCreatedCount 0 st0) n st ->
  belowBudget (window toIso fromIso m) st ->
  singleSearchAfter services
    (searchParams pageSize (window toIso fromIso m) fromIso toIso st)
    (world st)
  = (w1, Ok (searchResult, searchDuration)) ->
  totalHits searchResult = 0%Z \/ hits searchResult = [] ->
  let params :=
    searchParams pageSize (window toIso fromIso m) fromIso toIso st in
  let st' := searched params w1 searchDuration st in
  pageBody services pageSize (window toIso fromIso m) st = (st', Ok Break)
  /\ calls st' = calls st ++ [CallSearchAfter params]
  /\ windowLoop services pageSize (n + S fuel)
       (Some (window toIso fromIso m) :: rest) st0
     = windowLoop services pageSize (n + S fuel) rest st'
  /\ (forall (k : Z) (hs : list SignalHit),
        totalHits (mkResponse (TotalNumber k) hs) = k
        /\ totalHits (mkResponse (TotalObject k) hs) = k).
Proof.
  intros Hp Hg Hs Hz params st'.
  assert (Hb : pageBody services pageSize (window toIso fromIso m) st
               = (st', Ok Break))
    by (now apply pageBody_no_hits with (searchResult := searchResult)).
  repeat split.
  - exact Hb.
  - apply windowLoop_next_window with (st := st); [assumption|].
    now apply pageLoop_break.
Qed.

(** C5. If the page fetch, the filter or the bulk create of an iteration
    throws, the run returns at once: the exit is the early return, [success]
    is false, the text of the thrown value is in [errors] (appended to the
    errors collected so far unless already among them), and
    [createdSignalsCount], both duration lists and [lastLookBackDate] are
    those of the moment of the throw. *)
Theorem C5_thrown_call_aborts_run
    (fuel n : nat) (later earlier : list (option SignalTimeTuple))
    (toIso fromIso : string) (m : Q) (w : World)
    (st0 st stF : Locals World) (exc : string) :
  windowsDone services pageSize (n + S fuel) earlier w st0 ->
  pagesThrough services pageSize (window toIso fromIso m)
    (with_signalsCreatedCount 0 st0) n st ->
  belowBudget (window toIso fromIso m) st ->
  pageFails services pageSize toIso fromIso m st exc stF ->
  let result :=
    searchAfterAndBulkCreate services pageSize (n + S fuel)
      (later ++ Some (window toIso fromIso m) :: earlier) w in
  let r := toReturn (fst result) in
  snd result = Return
  /\ fst result = catchBlock exc stF
  /\ success r = false
  /\ In exc (errors r)
  /\ errors r
     = (if existsb (String.eqb exc) (errors (toReturn st))
        then errors (toReturn st)
        else errors (toReturn st) ++ [exc])
  /\ createdSignalsCount r = createdSignalsCount (toReturn stF)
  /\ searchAfterTimes r = searchAfterTimes (toReturn stF)
  /\ bulkCreateTimes r = bulkCreateTimes (toReturn stF)
  /\ lastLookBackDate r = lastLookBackDate (toReturn stF)
  /\ createdSignalsCount (toReturn stF) = createdSignalsCount (toReturn st)
  /\ bulkCreateTimes (toReturn stF) = bulkCreateTimes (toReturn st)
  /\ (exists pushed,
        searchAfterTimes (toReturn stF)
        = searchAfterTimes (toReturn st) ++ pushed).
Proof.
  intros Hw Hp Hg Hf result r.
  assert (Hrun : result = (catchBlock exc stF, Return)).
  { unfold result. rewrite (run_at_window later _ Hw).
    apply windowLoop_returns with (st := st); [assumption|].
    apply pageLoop_thrown; [assumption|]. now apply pageBody_fails. }
  assert (Hnd : NoDup (errors (toReturn st))).
  { apply (pagesThrough_errors_NoDup Hp). simpl.
    exact (windowsDone_errors_NoDup Hw). }
  assert (Herr : errors (toReturn stF) = errors (toReturn st))
    by (destruct Hf; reflexivity).
  unfold r. rewrite Hrun. simpl. rewrite Herr.
  repeat split.
  - apply JSFacts.newSet_In. apply in_or_app. right. now left.
  - now apply JSFacts.newSet_snoc.
  - destruct Hf; reflexivity.
  - destruct Hf; reflexivity.
  - destruct Hf; simpl;
      [exists []; now rewrite app_nil_r | eexists; reflexivity ..].
Qed.

(** A malformed tuple ends the window loop on the spot. *)
Lemma windowLoop_malformed (fuel : nat) (tuple : option SignalTimeTuple)
    (rest : list (option SignalTimeTuple)) (st : Locals World) :
  malformed tuple = true ->
  windowLoop services pageSize fuel (tuple :: rest) st = malformedTuple st.
Proof.
  destruct tuple as [t|]; simpl; [|reflexivity].
  intro H. now rewrite H.
Qed.

(** C8. If the tuple popped is [null], or its [to] or [from] is, the run
    returns at once with [success] false and 'malformed date tuple' in
    [errors] (appended to the errors collected so far unless already among
    them); everything else collected from the windows handled before
    (created count, duration lists, [lastLookBackDate]) is returned as it
    stood. *)
Theorem C8_malformed_tuple_fails_run
    (fuel : nat) (later earlier : list (option SignalTimeTuple))
    (tuple : option SignalTimeTuple) (w : World) (st0 : Locals World) :
  windowsDone services pageSize fuel earlier w st0 ->
  malformed tuple = true ->
  let result :=
    searchAfterAndBulkCreate services pageSize fuel
      (later ++ tuple :: earlier) w in
  let r := toReturn (fst result) in
  snd result = Return
  /\ success r = false
  /\ In "malformed date tuple"%string (errors r)
  /\ errors r
     = (if existsb (String.eqb "malformed date tuple") (errors (toReturn st0))
        then errors (toReturn st0)
        else errors (toReturn st0) ++ ["malformed date tuple"%string])
  /\ createdSignalsCount r = createdSignalsCount (toReturn st0)
  /\ searchAfterTimes r = searchAfterTimes (toReturn st0)
  /\ bulkCreateTimes r = bulkCreateTimes (toReturn st0)
  /\ lastLookBackDate r = lastLookBackDate (toReturn st0)
  /\ calls (fst result) = calls st0.
Proof.
  intros Hw Hm result r.
  assert (Hrun : result = malformedTuple st0).
  { unfold result. rewrite (run_at_window later _ Hw).
    now apply windowLoop_malformed. }
  unfold r. rewrite Hrun. simpl.
  repeat split.
  - apply JSFacts.newSet_In. apply in_or_app. right. now left.
  - apply JSFacts.newSet_snoc. exact (windowsDone_errors_NoDup Hw).
Qed.

(** C9. At every point of every run, and so in whatever the run returns,
    [errors] holds no string twice, by whichever path the strings came in. *)
Theorem C9_errors_without_duplicates
    (fuel : nat) (totalToFromTuples : list (option SignalTimeTuple))
    (w : World) :
  NoDup (errors (toReturn (fst (searchAfterAndBulkCreate services pageSize
                                  fuel totalToFromTuples w)))).
Proof.
  unfold searchAfterAndBulkCreate.
  apply windowLoop_errors_NoDup. constructor.
Qed.

End Control.

(** ** Writing and moving the cursor *)

Section Cursor.

Variable World : Type.
Variable services : Services World.
Variable pageSize : Q.

(** The cut of line 196 reaches [searchResult] only through a filter that
    handed back the object it was given, and only when something is cut. *)
Lemma pageAtCursor_as_fetched (tuple : SignalTimeTuple) (count : Z)
    (searchResult : SignalSearchResponse) (filterResult : FilterResult) :
  (exists own, filterResult = OwnObject own)
  \/ inject_Z (count + Z.of_nat (List.length (hits searchResult)))
     <= maxSignals tuple ->
  pageAtCursor tuple count searchResult filterResult = searchResult.
Proof.
  intros [[own ->]|Hfit]; [reflexivity|].
  destruct filterResult as [|own]; [|reflexivity].
  simpl. now apply truncateToBudget_within.
Qed.

(** X13. After every page that was processed (hits came back, the filter
    resolved, and the bulk create either resolved or was skipped), provided
    the filter handed back a response object of its own or the events fit
    the budget uncut: the cursor is taken from the last hit of the page as
    the search returned it, whatever the filter kept. If that hit has a
    sort array with a first element, that element is the new cursor and the
    loop continues; if the sort array is absent or empty, the page loop is
    left with [toReturn] as the write step left it and the window loop goes
    on to the next tuple. When the write was skipped, [errors] and
    [success] are those the iteration started with, and the filter call is
    the last one made. *)
Theorem cursor_from_search_page_unless_cut
    (fuel n : nat) (toIso fromIso : string) (m : Q)
    (rest : list (option SignalTimeTuple)) (st0 st stW : Locals World)
    (searchResult : SignalSearchResponse) (filterResult : FilterResult)
    (wrote : option SingleBulkCreateResult) :
  pagesThrough services pageSize (window toIso fromIso m)
    (with_signalsCreatedCount 0 st0) n st ->
  belowBudget (window toIso fromIso m) st ->
  pageProcessed services pageSize toIso fromIso m st searchResult
    filterResult wrote stW ->
  (exists own, filterResult = OwnObject own)
  \/ inject_Z (signalsCreatedCount st
               + Z.of_nat (List.length (hits searchResult)))
     <= m ->
  exists lastHit : SignalHit,
    JS.lastElement (hits searchResult) = Some lastHit
    /\ (forall first others,
          sort lastHit = Some (first :: others) ->
          pageBody services pageSize (window toIso fromIso m) st
          = (with_sortId (Some first) stW, Ok Continue))
    /\ (sort lastHit = None \/ sort lastHit = Some [] ->
          pageBody services pageSize (window toIso fromIso m) st
          = (stW, Ok Break)
          /\ windowLoop services pageSize (n + S fuel)
               (Some (window toIso fromIso m) :: rest) st0
             = windowLoop services pageSize (n + S fuel) rest stW)
    /\ (wrote = None ->
          errors (toReturn stW) = errors (toReturn st)
          /\ success (toReturn stW) = success (toReturn st)
          /\ calls stW
             = calls st
               ++ [CallSearchAfter
                     (searchParams pageSize (window toIso fromIso m)
                        fromIso toIso st);
                   CallFilter searchResult]).
Proof.
  intros Hp Hg Hproc Huncut.
  pose proof (pageBody_processed Hproc) as Hbody.
  rewrite (pageAtCursor_as_fetched (window toIso fromIso m) _ _ Huncut)
    in Hbody.
  pose proof (pageProcessed_hasHits Hproc) as [_ Hne].
  destruct (hasHits_lastElement _ Hne) as [lastHit Hlast].
  exists lastHit. split; [assumption|]. split; [|split].
  - intros first others Hsort.
    now rewrite (advanceSortId_continue _ stW Hlast Hsort) in Hbody.
  - intro Hsort.
    rewrite (advanceSortId_break _ stW Hlast Hsort) in Hbody.
    split; [assumption|].
    apply windowLoop_next_window with (st := st); [assumption|].
    now apply pageLoop_break.
  - intro Hnone.
    destruct (pageProcessed_calls Hproc) as (more & Hc & _ & Hmore).
    rewrite (Hmore Hnone) in Hc.
    destruct Hproc; [|discriminate]. simpl. auto.
Qed.

(** Reading [.sort] off an emptied page throws. *)
Lemma advanceSortId_empty (page : SignalSearchResponse) (st : Locals World) :
  hits page = [] -> advanceSortId page st = (st, Thrown JS.TypeError_sort).
Proof. intro H. unfold advanceSortId. now rewrite H. Qed.

(** On a page with hits it does not. *)
Lemma advanceSortId_resolves (page : SignalSearchResponse)
    (st : Locals World) :
  hits page <> [] ->
  exists (ctl : LoopCtl) (st' : Locals World),
    advanceSortId page st = (st', Ok ctl)
    /\ toReturn st' = toReturn st
    /\ signalsCreatedCount st' = signalsCreatedCount st.
Proof.
  intro Hne. destruct (hasHits_lastElement _ Hne) as [lastHit Hlast].
  destruct (sort lastHit) as [[|first others]|] eqn:Hsort.
  - exists Break, st.
    now rewrite (advanceSortId_break _ st Hlast (or_intror Hsort)).
  - exists Continue, (with_sortId (Some first) st).
    now rewrite (advanceSortId_continue _ st Hlast Hsort).
  - exists Break, st.
    now rewrite (advanceSortId_break _ st Hlast (or_introl Hsort)).
Qed.

(** X14. When the bulk create resolves with [success] false and errors of
    its own, its result is folded in: the writer's errors are united with
    the errors collected so far, [success] becomes the conjunction of its
    old value and the writer's, and the created count the writer reports is
    added to both counters. Control then reaches the cursor step of line
    243. If the page found there has hits, the iteration ends like any
    other, on the cursor, and the run does not return; if the cut of line
    196 has emptied it, line 243 throws and the run returns early with the
    writer's result folded in. *)
Theorem write_failure_folded_in
    (fuel : nat) (toIso fromIso : string) (m : Q) (st stW : Locals World)
    (searchResult : SignalSearchResponse) (filterResult : FilterResult)
    (b : SingleBulkCreateResult) :
  belowBudget (window toIso fromIso m) st ->
  pageProcessed services pageSize toIso fromIso m st searchResult
    filterResult (Some b) stW ->
  bulkSuccess b = false ->
  let page :=
    pageAtCursor (window toIso fromIso m) (signalsCreatedCount st)
      searchResult filterResult in
  errors (toReturn stW) = JS.newSet (errors (toReturn st) ++ bulkErrors b)
  /\ (forall e,
        In e (errors (toReturn stW))
        <-> In e (errors (toReturn st)) \/ In e (bulkErrors b))
  /\ success (toReturn stW) = success (toReturn st) && bulkSuccess b
  /\ success (toReturn stW) = false
  /\ createdSignalsCount (toReturn stW)
     = (createdSignalsCount (toReturn st) + createdCount b)%Z
  /\ signalsCreatedCount stW = (signalsCreatedCount st + createdCount b)%Z
  /\ pageBody services pageSize (window toIso fromIso m) st
     = advanceSortId page stW
  /\ (hits page <> [] ->
      exists (ctl : LoopCtl) (st' : Locals World),
        pageBody services pageSize (window toIso fromIso m) st = (st', Ok ctl)
        /\ toReturn st' = toReturn stW
        /\ signalsCreatedCount st' = signalsCreatedCount stW
        /\ pageLoop services pageSize (S fuel) (window toIso fromIso m) st
           = match ctl with
             | Continue =>
                 pageLoop services pageSize fuel (window toIso fromIso m) st'
             | Break => (st', LoopExit)
             end)
  /\ (hits page = [] ->
      pageLoop services pageSize (S fuel) (window toIso fromIso m) st
      = (catchBlock JS.TypeError_sort stW, Return)).
Proof.
  intros Hg Hp Hfalse page.
  pose proof (pageBody_processed Hp) as Hbody. fold page in Hbody.
  assert (Hfields :
    errors (toReturn stW) = JS.newSet (errors (toReturn st) ++ bulkErrors b)
    /\ success (toReturn stW) = success (toReturn st) && bulkSuccess b
    /\ createdSignalsCount (toReturn stW)
       = (createdSignalsCount (toReturn st) + createdCount b)%Z
    /\ signalsCreatedCount stW = (signalsCreatedCount st + createdCount b)%Z).
  { inversion Hp; subst. simpl. auto. }
  destruct Hfields as (He & Hs & Hc & Hn).
  split; [assumption|]. split.
  { intro e. rewrite He, JSFacts.newSet_In. apply in_app_iff. }
  split; [assumption|]. split.
  { rewrite Hs, Hfalse. apply andb_false_r. }
  split; [assumption|]. split; [assumption|]. split; [assumption|]. split.
  - intro Hne.
    destruct (@advanceSortId_resolves page stW Hne)
      as (ctl & st' & Ha & Hr & Hk).
    rewrite Ha in Hbody. exists ctl, st'.
    repeat split; try assumption.
    destruct ctl; [now apply pageLoop_continue | now apply pageLoop_break].
  - intro Hnil. rewrite (@advanceSortId_empty page stW Hnil) in Hbody.
    now apply pageLoop_thrown.
Qed.

(** C10. When the last hit of the page, as line 243 finds it, carries a
    sort array with at least one element, the new cursor is the first
    element of that array and nothing else of it: it is what [sortId] holds
    afterwards, and what the next page fetch of the window is made with.
    The page line 243 finds is the page as line 196 cut it when the filter
    handed back the response it was given; it is the page as fetched when
    the filter handed back a response of its own, or nothing had to be
    cut. *)
Theorem C10_cursor_is_first_sort_element
    (toIso fromIso : string) (m : Q) (st stW : Locals World)
    (searchResult : SignalSearchResponse) (filterResult : FilterResult)
    (wrote : option SingleBulkCreateResult) (lastHit : SignalHit)
    (first : string) (others : list string) :
  pageProcessed services pageSize toIso fromIso m st searchResult
    filterResult wrote stW ->
  JS.lastElement
    (hits (pageAtCursor (window toIso fromIso m) (signalsCreatedCount st)
             searchResult filterResult))
  = Some lastHit ->
  sort lastHit = Some (first :: others) ->
  (exists st' : Locals World,
     pageBody services pageSize (window toIso fromIso m) st
     = (st', Ok Continue)
     /\ sortId st' = Some first
     /\ exists more,
          calls (fst (pageBody services pageSize (window toIso fromIso m)
                        st'))
          = calls st'
            ++ CallSearchAfter
                 (mkSearchParams (Some first) fromIso toIso
                    (pageSizeArg pageSize (window toIso fromIso m)))
               :: more
          /\ noSearch more)
  /\ ((exists own, filterResult = OwnObject own)
      \/ inject_Z (signalsCreatedCount st
                   + Z.of_nat (List.length (hits searchResult)))
         <= m ->
      pageAtCursor (window toIso fromIso m) (signalsCreatedCount st)
        searchResult filterResult
      = searchResult).
Proof.
  intros Hproc Hlast Hsort. split.
  - pose proof (pageBody_processed Hproc) as Hbody.
    rewrite (advanceSortId_continue _ stW Hlast Hsort) in Hbody.
    exists (with_sortId (Some first) stW).
    split; [assumption|]. split; [reflexivity|].
    exact (pageBody_first_call services pageSize toIso fromIso m
             (with_sortId (Some first) stW)).
  - exact (@pageAtCursor_as_fetched (window toIso fromIso m)
             (signalsCreatedCount st) searchResult filterResult).
Qed.

End Cursor.

(** ** The cursor across windows *)

(** Popping a tuple resets the per-window count and nothing else: the first
    page fetch of a window is made with whatever cursor the window before
    it left behind. *)
Lemma window_first_fetch (World : Type) (services : Services World)
    (pageSize : Q) (toIso fromIso : string) (m : Q) (st : Locals World) :
  signalsCreatedCount (with_signalsCreatedCount 0 st) = 0%Z
  /\ sortId (with_signalsCreatedCount 0 st) = sortId st
  /\ exists more,
       calls (fst (pageBody services pageSize (window toIso fromIso m)
                     (with_signalsCreatedCount 0 st)))
       = calls st
         ++ CallSearchAfter
              (mkSearchParams (sortId st) fromIso toIso
                 (pageSizeArg pageSize (window toIso fromIso m)))
            :: more.
Proof.
  split; [reflexivity|]. split; [reflexivity|].
  destruct (pageBody_first_call services pageSize toIso fromIso m
              (with_signalsCreatedCount 0 st)) as (more & H & _).
  now exists more.
Qed.

(** ** What holds throughout a run *)

Section Throughout.

Variable World : Type.
Variable services : Services World.
Variable pageSize : Q.

(** Case analysis on one iteration of the page loop: [H] names the
    outcome. *)
Ltac iteration tuple st H :=
  destruct (pageBody_outcome services pageSize tuple st)
    as [H | H
       | toIso fromIso exc stF _ H
       | toIso fromIso w1 searchResult searchDuration _ H ?
       | toIso fromIso searchResult filterResult wrote stW _ H].

(** A property of the state kept by every step of the loops is kept by the
    loops. *)
Lemma pageLoop_invariant (P : Locals World -> Prop) (tuple : SignalTimeTuple) :
  (forall st, belowBudget tuple st -> P st ->
              P (fst (pageBody services pageSize tuple st))) ->
  (forall exc st, P st -> P (catchBlock exc st)) ->
  forall fuel st, P st -> P (fst (pageLoop services pageSize fuel tuple st)).
Proof.
  intros Hbody Hcatch. induction fuel as [|fuel IH]; intros st H; simpl.
  - destruct (JS.Qlt_bool _ _); assumption.
  - destruct (JS.Qlt_bool _ _) eqn:Hg; [|assumption].
    apply JSFacts.Qlt_bool_iff in Hg.
    pose proof (Hbody st Hg H) as Hb.
    destruct (pageBody services pageSize tuple st) as [st' [[|]|exc]];
      simpl in *; auto.
Qed.

Lemma windowLoop_invariant (P : Locals World -> Prop)
    (stack : list (option SignalTimeTuple)) :
  (forall tuple st, In (Some tuple) stack -> belowBudget tuple st -> P st ->
                    P (fst (pageBody services pageSize tuple st))) ->
  (forall exc st, P st -> P (catchBlock exc st)) ->
  (forall st, P st -> P (with_signalsCreatedCount 0 st)) ->
  forall fuel st, P st -> P (fst (windowLoop services pageSize fuel stack st)).
Proof.
  intros Hbody Hcatch Hreset fuel.
  induction stack as [|[tuple|] stack IH]; intros st H; simpl.
  - assumption.
  - destruct (isNull (to tuple) || isNull (from tuple)).
    + apply (Hcatch "malformed date tuple"%string st H).
    + assert (Hp : P (fst (pageLoop services pageSize fuel tuple
                             (with_signalsCreatedCount 0 st)))).
      { apply pageLoop_invariant; auto.
        intros st1. apply Hbody. now left. }
      destruct (pageLoop services pageSize fuel tuple
                  (with_signalsCreatedCount 0 st)) as [st' []]; simpl in *;
        try assumption.
      apply IH; [|assumption].
      intros t st1 Hin. apply Hbody. now right.
  - apply (Hcatch "malformed date tuple"%string st H).
Qed.

Lemma run_invariant (P : Locals World -> Prop)
    (totalToFromTuples : list (option SignalTimeTuple)) :
  (forall tuple st, In (Some tuple) totalToFromTuples ->
                    belowBudget tuple st -> P st ->
                    P (fst (pageBody services pageSize tuple st))) ->
  (forall exc st, P st -> P (catchBlock exc st)) ->
  (forall st, P st -> P (with_signalsCreatedCount 0 st)) ->
  forall fuel w,
    P (initialLocals w) ->
    P (fst (searchAfterAndBulkCreate services pageSize fuel
              totalToFromTuples w)).
Proof.
  intros Hbody Hcatch Hreset fuel w H. unfold searchAfterAndBulkCreate.
  apply windowLoop_invariant; auto.
  intros tuple st Hin. apply Hbody. now apply in_rev.
Qed.

(** *** The return value only grows *)

Lemma accumulates_refl (st : Locals World) : accumulates st st.
Proof.
  repeat split; auto; exists []; now rewrite app_nil_r.
Qed.

Lemma accumulates_trans (st1 st2 st3 : Locals World) :
  accumulates st1 st2 -> accumulates st2 st3 -> accumulates st1 st3.
Proof.
  intros (Hs & Hb & He & Hok & Hd & Hc) (Hs' & Hb' & He' & Hok' & Hd' & Hc').
  repeat split; auto.
  - destruct Hs as [m1 E1]. destruct Hs' as [m2 E2].
    exists (m1 ++ m2). now rewrite E2, E1, app_assoc.
  - destruct Hb as [m1 E1]. destruct Hb' as [m2 E2].
    exists (m1 ++ m2). now rewrite E2, E1, app_assoc.
  - destruct Hc as [m1 E1]. destruct Hc' as [m2 E2].
    exists (m1 ++ m2). now rewrite E2, E1, app_assoc.
Qed.

Lemma lookBackDate_hasHits (searchResult : SignalSearchResponse) :
  hasHits searchResult ->
  exists lastHit,
    JS.lastElement (hits searchResult) = Some lastHit
    /\ lookBackDate searchResult
       = Some (newDate (Some (source_timestamp lastHit))).
Proof.
  intros [_ Hne]. destruct (hasHits_lastElement _ Hne) as [lastHit Hl].
  exists lastHit. split; [assumption|]. unfold lookBackDate. rewrite Hl.
  destruct (hits searchResult); [congruence | reflexivity].
Qed.

Lemma lookBackDate_set (searchResult : SignalSearchResponse) :
  hasHits searchResult -> lookBackDate searchResult <> None.
Proof.
  intro H. destruct (lookBackDate_hasHits H) as (lastHit & _ & ->).
  discriminate.
Qed.

Lemma merge_bulk_accumulates (b : SingleBulkCreateResult)
    (r : SearchAfterAndBulkCreateReturnType) :
  (exists more, bulkCreateTimes (merge_bulk b r) = bulkCreateTimes r ++ more)
  /\ (forall e, In e (errors r) -> In e (errors (merge_bulk b r)))
  /\ (success (merge_bulk b r) = true -> success r = true).
Proof.
  unfold merge_bulk. simpl. repeat split.
  - destruct (JS.truthy (bulkDuration b));
      [eexists; reflexivity | exists []; now rewrite app_nil_r].
  - intros e He. apply JSFacts.newSet_In. apply in_or_app. now left.
  - intro H. now apply andb_true_iff in H.
Qed.

Lemma pageBody_accumulates (tuple : SignalTimeTuple) (st : Locals World) :
  accumulates st (fst (pageBody services pageSize tuple st)).
Proof.
  iteration tuple st Hc; try apply accumulates_refl.
  - destruct Hc as [w1 e Hs | w1 w2 sr d e Hs Hh Hf
                   | w1 w2 w3 sr fe d e Hs Hh Hf Hne Hb];
      unfold accumulates; simpl; repeat split; auto;
      try (exists []; now rewrite app_nil_r);
      try (eexists; reflexivity);
      try (intros _; now apply lookBackDate_set);
      try (eexists; repeat rewrite <- app_assoc; reflexivity).
  - unfold accumulates; simpl; repeat split; auto;
      try (exists []; now rewrite app_nil_r); eexists; reflexivity.
  - unfold accumulates.
    match goal with
    | |- context [advanceSortId ?page ?s] =>
        destruct (advanceSortId_frame page s) as (_ & -> & -> & _)
    end.
    destruct Hc as [w1 w2 sr fe d Hs Hh Hf He
                   | w1 w2 w3 sr fe d b Hs Hh Hf Hne Hb];
      simpl.
    + repeat split; auto;
        try (exists []; now rewrite app_nil_r);
        try (eexists; reflexivity);
        try (intros _; now apply lookBackDate_set);
        try (eexists; repeat rewrite <- app_assoc; reflexivity).
    + destruct (merge_bulk_accumulates b
                  (set_lastLookBackDate (lookBackDate sr)
                     (push_searchAfterTime d (toReturn st))))
        as (Hbt & Her & Hok).
      unfold merge_bulk in *. simpl in *.
      repeat split; auto;
        try (eexists; reflexivity);
        try (intros _; now apply lookBackDate_set);
        try (eexists; repeat rewrite <- app_assoc; reflexivity).
Qed.

Lemma catchBlock_accumulates (exc : string) (st : Locals World) :
  accumulates st (catchBlock exc st).
Proof.
  unfold accumulates; simpl; repeat split; auto;
    try (exists []; now rewrite app_nil_r); try discriminate.
  intros e He. apply JSFacts.newSet_In. apply in_or_app. now left.
Qed.

Lemma reset_accumulates (st : Locals World) :
  accumulates st (with_signalsCreatedCount 0 st).
Proof.
  unfold accumulates; simpl.
  repeat split; auto; exists []; now rewrite app_nil_r.
Qed.

(** X1. From any state, whatever the window loop goes on to do, the return
    value is only added to: both duration lists and the record of calls are
    extended at the end, no error recorded is lost, [success] never turns
    from false to true, and [lastLookBackDate] never turns back to null. *)
Theorem return_value_only_accumulates
    (fuel : nat) (stack : list (option SignalTimeTuple)) (st : Locals World) :
  accumulates st (fst (windowLoop services pageSize fuel stack st)).
Proof.
  apply (windowLoop_invariant (accumulates st)).
  - intros tuple st1 _ _ H.
    apply (accumulates_trans H). apply pageBody_accumulates.
  - intros exc st1 H.
    apply (accumulates_trans H). apply catchBlock_accumulates.
  - intros st1 H. apply (accumulates_trans H). apply reset_accumulates.
  - apply accumulates_refl.
Qed.

(** *** How a run ends *)

Lemma pageLoop_return (fuel : nat) (tuple : SignalTimeTuple)
    (st : Locals World) :
  snd (pageLoop services pageSize fuel tuple st) = Return ->
  exists exc st',
    fst (pageLoop services pageSize fuel tuple st) = catchBlock exc st'.
Proof.
  revert st. induction fuel as [|fuel IH]; intros st; simpl.
  - destruct (JS.Qlt_bool _ _); discriminate.
  - destruct (JS.Qlt_bool _ _); [|discriminate].
    destruct (pageBody services pageSize tuple st) as [st' [[|]|exc]];
      simpl.
    + apply IH.
    + discriminate.
    + intros _. now exists exc, st'.
Qed.

Lemma windowLoop_return (fuel : nat) (stack : list (option SignalTimeTuple))
    (st : Locals World) :
  snd (windowLoop services pageSize fuel stack st) = Return ->
  exists exc st',
    fst (windowLoop services pageSize fuel stack st) = catchBlock exc st'.
Proof.
  revert st. induction stack as [|[tuple|] stack IH]; intros st; simpl.
  - discriminate.
  - destruct (isNull (to tuple) || isNull (from tuple)).
    + intros _. now exists "malformed date tuple"%string, st.
    + pose proof (pageLoop_return fuel tuple (with_signalsCreatedCount 0 st))
        as Hp.
      destruct (pageLoop services pageSize fuel tuple
                  (with_signalsCreatedCount 0 st)) as [st' []]; simpl in *.
      * discriminate.
      * apply IH.
      * assumption.
  - intros _. now exists "malformed date tuple"%string, st.
Qed.

(** X2. A run that ends by an early return (line 117 or line 254) always
    reports failure: [success] is false and [errors] is not empty. A run
    whose [success] is true never took an early return. *)
Theorem early_return_reports_failure
    (fuel : nat) (totalToFromTuples : list (option SignalTimeTuple))
    (w : World) :
  let result :=
    searchAfterAndBulkCreate services pageSize fuel totalToFromTuples w in
  (snd result = Return ->
   success (toReturn (fst result)) = false
   /\ errors (toReturn (fst result)) <> [])
  /\ (success (toReturn (fst result)) = true -> snd result <> Return).
Proof.
  intro result.
  assert (H : snd result = Return ->
              success (toReturn (fst result)) = false
              /\ errors (toReturn (fst result)) <> []).
  { intro Hr. destruct (windowLoop_return _ _ _ Hr) as (exc & st' & E).
    unfold result, searchAfterAndBulkCreate. rewrite E. simpl.
    split; [reflexivity|]. intro Hnil.
    assert (Hin : In exc (JS.newSet (errors (toReturn st') ++ [exc]))).
    { apply JSFacts.newSet_In. apply in_or_app. right. now left. }
    rewrite Hnil in Hin. destruct Hin. }
  split; [exact H|].
  intros Hs Hr. destruct (H Hr) as [Hf _]. congruence.
Qed.

(** X3. A malformed tuple anywhere in the array rules out normal
    completion: the run ends by an early return (on that tuple or on a
    throw before it), or is still running. *)
Theorem malformed_tuple_never_completes
    (fuel : nat) (totalToFromTuples : list (option SignalTimeTuple))
    (tuple : option SignalTimeTuple) (w : World) :
  In tuple totalToFromTuples ->
  malformed tuple = true ->
  snd (searchAfterAndBulkCreate services pageSize fuel totalToFromTuples w)
  <> LoopExit.
Proof.
  intros Hin Hm. unfold searchAfterAndBulkCreate.
  apply in_rev in Hin. revert Hin. generalize (initialLocals w).
  induction (rev totalToFromTuples) as [|[t|] stack IH]; intros st Hin.
  - destruct Hin.
  - simpl. destruct (isNull (to t) || isNull (from t)) eqn:Hnull;
      [discriminate|].
    destruct Hin as [Hhead|Hin]; [subst tuple; simpl in Hm; congruence|].
    destruct (pageLoop services pageSize fuel t
                (with_signalsCreatedCount 0 st)) as [st' []]; simpl;
      [discriminate | now apply IH | discriminate].
  - simpl. discriminate.
Qed.

(** X4. Windows without a budget cost nothing: when every tuple has both
    bounds and a [maxSignals] of 0 or less (the empty array included), the
    run calls no collaborator and returns the initial value, whatever the
    fuel. *)
Theorem no_budget_no_calls
    (fuel : nat) (totalToFromTuples : list (option SignalTimeTuple))
    (w : World) :
  noBudget totalToFromTuples ->
  searchAfterAndBulkCreate services pageSize fuel totalToFromTuples w
  = (initialLocals w, LoopExit).
Proof.
  intro H. unfold searchAfterAndBulkCreate.
  assert (Hrev : noBudget (rev totalToFromTuples)).
  { intros t Ht. apply H. now apply in_rev. }
  clear H.
  change (initialLocals w) with (with_signalsCreatedCount 0 (initialLocals w)).
  generalize (initialLocals w).
  induction (rev totalToFromTuples) as [|tuple stack IH]; intro st.
  - reflexivity.
  - destruct (Hrev tuple (or_introl eq_refl))
      as (toIso & fromIso & m & -> & Hm).
    rewrite windowLoop_window.
    rewrite pageLoop_budget_reached by exact Hm.
    assert (Hrest : noBudget stack) by (intros t Ht; apply Hrev; now right).
    exact (IH Hrest (with_signalsCreatedCount 0 st)).
Qed.

(** *** The record of calls *)

Lemma cursors_app (xs ys : list Call) :
  cursors (xs ++ ys) = cursors xs ++ cursors ys.
Proof.
  induction xs as [|[p|r|r] xs IH]; simpl;
    [reflexivity | now f_equal | auto ..].
Qed.

Lemma bulkCalls_app (xs ys : list Call) :
  bulkCalls (xs ++ ys) = (bulkCalls xs + bulkCalls ys)%nat.
Proof.
  induction xs as [|[p|r|r] xs IH]; simpl; auto.
Qed.

Lemma offeredEvents_app (xs ys : list Call) :
  offeredEvents (xs ++ ys) = (offeredEvents xs + offeredEvents ys)%Z.
Proof.
  induction xs as [|[p|r|r] xs IH]; simpl; auto. rewrite IH. lia.
Qed.

Lemma lastFilteredFrom_app (acc : option SignalSearchResponse)
    (xs ys : list Call) :
  lastFilteredFrom acc (xs ++ ys)
  = lastFilteredFrom (lastFilteredFrom acc xs) ys.
Proof.
  revert acc. induction xs as [|[p|r|r] xs IH]; intro acc; simpl; auto.
Qed.

(** Every way an iteration can go, with the frame of the cursor step
    applied: [Hc] names the outcome. *)
Ltac rounds tuple st Hc :=
  iteration tuple st Hc;
  [ | | destruct Hc as [w1 e Hs | w1 w2 sr d e Hs Hh Hf
                       | w1 w2 w3 sr fe d e Hs Hh Hf Hne Hb]
    |
    | match goal with
      | |- context [advanceSortId ?sr ?s] =>
          destruct (advanceSortId_frame sr s) as (Hfw & Hfc & Hfr & Hfn)
      end;
      destruct Hc as [w1 w2 sr fe d Hs Hh Hf He
                     | w1 w2 w3 sr fe d b Hs Hh Hf Hne Hb] ].

(** The cut of line 196 keeps the total and a leading part of the hits. *)
Lemma truncateToBudget_prefix (tuple : SignalTimeTuple) (count : Z)
    (filteredEvents : SignalSearchResponse) :
  total (truncateToBudget tuple count filteredEvents)
  = total filteredEvents
  /\ exists n : nat,
       hits (truncateToBudget tuple count filteredEvents)
       = firstn n (hits filteredEvents).
Proof.
  unfold truncateToBudget. destruct (JS.Qlt_bool _ _); simpl.
  - split; [reflexivity|]. unfold JS.slice0. eexists. reflexivity.
  - split; [reflexivity|]. exists (List.length (hits filteredEvents)).
    symmetry. apply firstn_all.
Qed.

(** X6. The record of calls of a run is made of rounds played in order
    against the collaborators, each call made in the world the call before
    it left. A round starts with a page fetch. The filter is called in a
    round only when the fetch of that round resolved to a page with hits
    and a non-zero total, and it is called on that page. A bulk create is
    made in a round only when the filter of that round resolved and left
    events, and it is handed a leading part of those events, with their
    total. Nothing else is called. *)
Theorem calls_come_in_rounds
    (fuel : nat) (totalToFromTuples : list (option SignalTimeTuple))
    (w : World) :
  let st := fst (searchAfterAndBulkCreate services pageSize fuel
                   totalToFromTuples w) in
  replays services w (calls st) (world st).
Proof.
  apply (run_invariant (fun st => replays services w (calls st) (world st))).
  - intros tuple st _ _ H. rounds tuple st Hc; simpl in *;
      try rewrite Hfc; try rewrite Hfw; simpl;
      repeat rewrite <- app_assoc; simpl;
      try assumption.
    + eapply replays_search_thrown; try eassumption.
    + eapply replays_filter_thrown; try eassumption.
    + destruct (truncateToBudget_prefix
                  (window toIso fromIso (maxSignals tuple))
                  (signalsCreatedCount st) (eventsOf sr fe))
        as (Ht & n & Hn).
      eapply replays_bulk_create; try eassumption.
    + eapply replays_no_hits; try eassumption.
    + eapply replays_nothing_left; try eassumption.
    + destruct (truncateToBudget_prefix
                  (window toIso fromIso (maxSignals tuple))
                  (signalsCreatedCount st) (eventsOf sr fe))
        as (Ht & n & Hn).
      eapply replays_bulk_create; try eassumption.
  - intros exc st H. exact H.
  - intros st H. exact H.
  - constructor.
Qed.

(** A batch cut to a whole-number budget that is not used up is not cut to
    nothing. *)
Lemma truncateToBudget_nonempty (tuple : SignalTimeTuple) (count k : Z)
    (filteredEvents : SignalSearchResponse) :
  inject_Z count < maxSignals tuple ->
  maxSignals tuple == inject_Z k ->
  hits filteredEvents <> [] ->
  hits (truncateToBudget tuple count filteredEvents) <> [].
Proof.
  intros Hlt Hk Hne.
  destruct (Qlt_le_dec (maxSignals tuple)
              (inject_Z (count
                         + Z.of_nat (List.length (hits filteredEvents)))))
    as [Hover|Hfit].
  - destruct (truncateToBudget_over tuple filteredEvents Hlt Hover)
      as [_ Hlen].
    rewrite (Qfloor_of_integer Hk) in Hlen.
    rewrite Hk in Hlt. rewrite <- Zlt_Qlt in Hlt.
    intro Hnil. rewrite Hnil in Hlen. simpl in Hlen. lia.
  - now rewrite truncateToBudget_within.
Qed.

(** X5. When every window has a whole-number [maxSignals], the bulk writer
    is never handed an empty batch: it is called only when something is
    left after filtering, and the cut to the budget leaves at least one
    event. *)
Theorem writer_never_handed_empty_batch
    (fuel : nat) (totalToFromTuples : list (option SignalTimeTuple))
    (w : World) (offered : SignalSearchResponse) :
  wholeCaps totalToFromTuples ->
  In (CallBulkCreate offered)
     (calls (fst (searchAfterAndBulkCreate services pageSize fuel
                    totalToFromTuples w))) ->
  hits offered <> [].
Proof.
  intro Hwhole. revert offered.
  apply (run_invariant
           (fun st => forall offered,
                In (CallBulkCreate offered) (calls st) ->
                hits offered <> [])).
  - intros tuple st Hin Hg H offered.
    destruct (Hwhole tuple Hin) as [k Hk].
    rounds tuple st Hc; simpl in *; try rewrite Hfc; simpl;
      repeat rewrite in_app_iff; simpl;
      try (intros [Ho|[Ho|[]]]; [now apply H | discriminate]);
      try (intros [[Ho|[Ho|[]]]|[Ho|[]]];
           [now apply H | discriminate | discriminate]);
      try (now apply H).
    + intros [[[Ho|[Ho|[]]]|[Ho|[]]]|[Ho|[]]];
        [now apply H | discriminate | discriminate |].
      injection Ho as <-.
      now apply (truncateToBudget_nonempty
                   (window toIso fromIso (maxSignals tuple))
                   (k := k) (eventsOf sr fe) Hg).
    + intros [[[Ho|[Ho|[]]]|[Ho|[]]]|[Ho|[]]];
        [now apply H | discriminate | discriminate |].
      injection Ho as <-.
      now apply (truncateToBudget_nonempty
                   (window toIso fromIso (maxSignals tuple))
                   (k := k) (eventsOf sr fe) Hg).
  - intros exc st H. exact H.
  - intros st H. exact H.
  - intros offered [].
Qed.

(** X10. With a writer that never reports more created items than it was
    offered, [createdSignalsCount] never exceeds the number of events
    handed to the writer over the run. *)
Theorem created_within_events_offered
    (fuel : nat) (totalToFromTuples : list (option SignalTimeTuple))
    (w : World) :
  truthfulWriter services ->
  let st :=
    fst (searchAfterAndBulkCreate services pageSize fuel totalToFromTuples w)
  in
  (createdSignalsCount (toReturn st) <= offeredEvents (calls st))%Z.
Proof.
  intros Htruth.
  apply (run_invariant
           (fun st => (createdSignalsCount (toReturn st)
                       <= offeredEvents (calls st))%Z)).
  - intros tuple st _ _ H.
    rounds tuple st Hc; simpl in *; try rewrite Hfc, Hfr; simpl;
      repeat rewrite offeredEvents_app; simpl; try lia.
    apply Htruth in Hb. lia.
  - intros exc st H. exact H.
  - intros st H. exact H.
  - simpl. lia.
Qed.

(** X7. At every point of a run, [lastLookBackDate] is null if no page was
    handed to the filter yet, and otherwise the date made of the timestamp
    of the last hit of the page handed to the filter last, whatever became
    of that page afterwards (filtered to nothing, written, or lost to a
    throw) and whichever window it belonged to. *)
Theorem lastLookBackDate_of_last_filtered_page
    (fuel : nat) (totalToFromTuples : list (option SignalTimeTuple))
    (w : World) :
  let st :=
    fst (searchAfterAndBulkCreate services pageSize fuel totalToFromTuples w)
  in
  match lastFiltered (calls st) with
  | None => lastLookBackDate (toReturn st) = None
  | Some page =>
      exists lastHit,
        JS.lastElement (hits page) = Some lastHit
        /\ lastLookBackDate (toReturn st)
           = Some (newDate (Some (source_timestamp lastHit)))
  end.
Proof.
  intro st.
  assert (H : lookBackInvariant st).
  { apply (run_invariant lookBackInvariant).
    - intros tuple st1 _ _ H. unfold lookBackInvariant in *.
      rounds tuple st1 Hc; simpl in *; try rewrite Hfc, Hfr; simpl;
        unfold lastFiltered in *;
        repeat rewrite lastFilteredFrom_app; simpl;
        try assumption; now split.
    - intros exc st1 H. exact H.
    - intros st1 H. exact H.
    - reflexivity. }
  unfold lookBackInvariant in H.
  destruct (lastFiltered (calls st)) as [page|]; [|assumption].
  destruct H as [Hh ->].
  destruct (lookBackDate_hasHits Hh) as (lastHit & Hl & Hd).
  now exists lastHit.
Qed.

(** *** The cursor over a run *)

Lemma advanceSortId_keeps_cursor (searchResult : SignalSearchResponse)
    (st : Locals World) :
  sortId st <> None -> sortId (fst (advanceSortId searchResult st)) <> None.
Proof.
  intro H. unfold advanceSortId.
  destruct (JS.lastElement (hits searchResult)) as [lastHit|]; simpl;
    [|assumption].
  destruct (sort lastHit) as [[|first others]|]; simpl;
    [assumption | discriminate | assumption].
Qed.

Lemma cursorInvariant_fetch (st st' : Locals World) (more : list Call)
    (p : SingleSearchAfterParams) :
  cursorInvariant st ->
  calls st' = calls st ++ CallSearchAfter p :: more ->
  cursors more = [] ->
  searchAfterSortId p = sortId st ->
  (sortId st <> None -> sortId st' <> None) ->
  cursorInvariant st'.
Proof.
  intros (k & present & Hc & Hall & Hs) Hcalls Hmore Hp Hkeep.
  unfold cursorInvariant. rewrite Hcalls, cursors_app. simpl.
  rewrite Hmore, Hp, Hc.
  destruct (sortId st) as [c|] eqn:Hsort.
  - exists k, (present ++ [Some c]). split; [now rewrite app_assoc|].
    split.
    + apply Forall_app. split; [assumption|]. constructor; [discriminate|].
      constructor.
    + intros _. apply Hkeep. discriminate.
  - assert (Hnil : present = []).
    { destruct present; [reflexivity|]. exfalso. apply Hs; [discriminate|].
      reflexivity. }
    subst present. exists (S k), []. rewrite !app_nil_r.
    split; [|split; [constructor | congruence]].
    rewrite <- repeat_cons. reflexivity.
Qed.

(** X8. Over a whole run the cursor is absent for the first page fetches
    and present for all the page fetches after them: once a page has set
    [sortId], no later fetch, of the same window or of any window popped
    afterwards, is made without a cursor. *)
Theorem cursor_never_absent_again
    (fuel : nat) (totalToFromTuples : list (option SignalTimeTuple))
    (w : World) :
  exists (k : nat) (present : list (option string)),
    cursors (calls (fst (searchAfterAndBulkCreate services pageSize fuel
                           totalToFromTuples w)))
    = repeat None k ++ present
    /\ Forall (fun c => c <> None) present.
Proof.
  assert (H : cursorInvariant
                (fst (searchAfterAndBulkCreate services pageSize fuel
                        totalToFromTuples w))).
  { apply (run_invariant cursorInvariant).
    - intros tuple st _ _ H.
      rounds tuple st Hc; try assumption.
      + eapply (@cursorInvariant_fetch _ _ [] _ H); simpl; auto.
      + eapply (@cursorInvariant_fetch _ _ [CallFilter sr] _ H);
          simpl; [now rewrite <- app_assoc | auto ..].
      + eapply (@cursorInvariant_fetch _ _
                  [CallFilter sr; CallBulkCreate _] _ H);
          simpl; [now repeat rewrite <- app_assoc | auto ..].
      + eapply (@cursorInvariant_fetch _ _ [] _ H); simpl; auto.
      + eapply (@cursorInvariant_fetch _ _ [CallFilter sr] _ H);
          [ rewrite Hfc; simpl; now rewrite <- app_assoc
          | reflexivity | reflexivity
          | intro Hn; now apply advanceSortId_keeps_cursor ].
      + eapply (@cursorInvariant_fetch _ _
                  [CallFilter sr; CallBulkCreate _] _ H);
          [ rewrite Hfc; simpl; now repeat rewrite <- app_assoc
          | reflexivity | reflexivity
          | intro Hn; now apply advanceSortId_keeps_cursor ].
    - intros exc st H. exact H.
    - intros st H. exact H.
    - exists O, []. repeat split; [constructor | congruence]. }
  destruct H as (k & present & Hc & Hall & _).
  now exists k, present.
Qed.

(** *** Durations *)

Lemma durationsComplete_almost (st : Locals World) :
  durationsComplete st -> durationsAlmostComplete st.
Proof. unfold durationsComplete, durationsAlmostComplete. lia. Qed.

Lemma pageBody_durations (tuple : SignalTimeTuple) (st : Locals World) :
  durationsComplete st ->
  match snd (pageBody services pageSize tuple st) with
  | Ok _ => durationsComplete (fst (pageBody services pageSize tuple st))
  | Thrown _ =>
      durationsAlmostComplete (fst (pageBody services pageSize tuple st))
  end.
Proof.
  intro H. pose proof (durationsComplete_almost H) as Hw.
  unfold durationsComplete, durationsAlmostComplete in *.
  rounds tuple st Hc; simpl in *; try assumption;
    try (repeat rewrite cursors_app; repeat rewrite length_app; simpl; lia).
  - rewrite Hfc, Hfr. simpl.
    match goal with
    | |- context [snd (advanceSortId ?a ?b)] =>
        destruct (snd (advanceSortId a b))
    end;
      repeat rewrite cursors_app; repeat rewrite length_app; simpl; lia.
  - rewrite Hfc, Hfr. simpl.
    match goal with
    | |- context [snd (advanceSortId ?a ?b)] =>
        destruct (snd (advanceSortId a b))
    end;
      repeat rewrite cursors_app; repeat rewrite length_app; simpl; lia.
Qed.

Lemma pageLoop_durations (fuel : nat) (tuple : SignalTimeTuple)
    (st : Locals World) :
  durationsComplete st ->
  let result := pageLoop services pageSize fuel tuple st in
  (snd result <> Return -> durationsComplete (fst result))
  /\ durationsAlmostComplete (fst result).
Proof.
  revert st. induction fuel as [|fuel IH]; intros st H; simpl.
  - destruct (JS.Qlt_bool _ _); simpl;
      (split; [auto | now apply durationsComplete_almost]).
  - destruct (JS.Qlt_bool _ _); simpl;
      [|split; [auto | now apply durationsComplete_almost]].
    pose proof (pageBody_durations tuple H) as Hb.
    destruct (pageBody services pageSize tuple st) as [st' [[|]|exc]];
      simpl in *.
    + now apply IH.
    + split; [auto | now apply durationsComplete_almost].
    + split; [congruence | exact Hb].
Qed.

Lemma windowLoop_durations (fuel : nat)
    (stack : list (option SignalTimeTuple)) (st : Locals World) :
  durationsComplete st ->
  let result := windowLoop services pageSize fuel stack st in
  (snd result <> Return -> durationsComplete (fst result))
  /\ durationsAlmostComplete (fst result).
Proof.
  revert st. induction stack as [|[tuple|] stack IH]; intros st H; simpl.
  - split; [auto | now apply durationsComplete_almost].
  - destruct (isNull (to tuple) || isNull (from tuple)); simpl.
    + split; [congruence | now apply durationsComplete_almost].
    + pose proof (@pageLoop_durations fuel tuple
                    (with_signalsCreatedCount 0 st) H) as [Hc Hw].
      destruct (pageLoop services pageSize fuel tuple
                  (with_signalsCreatedCount 0 st)) as [st' []]; simpl in *.
      * split; [intros _; apply Hc; discriminate | assumption].
      * apply IH. apply Hc. discriminate.
      * split; [congruence | assumption].
  - split; [congruence | now apply durationsComplete_almost].
Qed.

(** X9. Durations are recorded one per call, in step with the calls: a run
    that has not returned early holds exactly one search duration per page
    fetch made; after an early return at most the last page fetch (the one
    that threw) lacks its duration. There are never more bulk durations
    than bulk creates. *)
Theorem durations_in_step_with_calls
    (fuel : nat) (totalToFromTuples : list (option SignalTimeTuple))
    (w : World) :
  let result :=
    searchAfterAndBulkCreate services pageSize fuel totalToFromTuples w in
  let st := fst result in
  (snd result <> Return ->
   List.length (searchAfterTimes (toReturn st))
   = List.length (cursors (calls st)))
  /\ (List.length (searchAfterTimes (toReturn st))
      <= List.length (cursors (calls st))
      <= S (List.length (searchAfterTimes (toReturn st))))%nat
  /\ (List.length (bulkCreateTimes (toReturn st)) <= bulkCalls (calls st))%nat.
Proof.
  intros result st.
  destruct (@windowLoop_durations fuel (rev totalToFromTuples)
              (initialLocals w) eq_refl) as [Hc Hw].
  split; [exact Hc|]. split; [exact Hw|].
  apply (run_invariant
           (fun st => (List.length (bulkCreateTimes (toReturn st))
                       <= bulkCalls (calls st))%nat)).
  - intros tuple st1 _ _ H.
    rounds tuple st1 Hc'; simpl in *; try rewrite Hfc, Hfr; simpl;
      repeat rewrite bulkCalls_app; simpl; try lia.
    destruct (JS.truthy (bulkDuration b)); try rewrite length_app; simpl;
      lia.
  - intros exc st1 H. exact H.
  - intros st1 H. exact H.
  - simpl. lia.
Qed.

(** *** Why a page loop is left *)

Lemma advanceSortId_break_inv (searchResult : SignalSearchResponse)
    (st st' : Locals World) :
  advanceSortId searchResult st = (st', Ok Break) ->
  st' = st
  /\ exists lastHit,
       JS.lastElement (hits searchResult) = Some lastHit
       /\ (sort lastHit = None \/ sort lastHit = Some []).
Proof.
  unfold advanceSortId.
  destruct (JS.lastElement (hits searchResult)) as [lastHit|];
    [|discriminate].
  destruct (sort lastHit) as [[|first others]|] eqn:Hs; simpl;
    intro H; inversion H; subst; split; try reflexivity;
    exists lastHit; auto.
Qed.

(** X12. A page loop is left normally for one of three reasons only: the
    budget of the window is used up; or the last page fetch came back with
    a total of 0 or without hits; or the last page was processed and the
    last hit of the page, as line 243 finds it (cut by line 196 when the
    filter handed back the response it was given), has no sort array, or an
    empty one. *)
Theorem page_loop_left_for_three_reasons
    (fuel : nat) (toIso fromIso : string) (m : Q) (st st' : Locals World) :
  pageLoop services pageSize fuel (window toIso fromIso m) st
  = (st', LoopExit) ->
  m <= inject_Z (signalsCreatedCount st')
  \/ (exists (st1 : Locals World) (w1 : World)
            (searchResult : SignalSearchResponse) (searchDuration : string),
        belowBudget (window toIso fromIso m) st1
        /\ singleSearchAfter services
             (searchParams pageSize (window toIso fromIso m) fromIso toIso st1)
             (world st1)
           = (w1, Ok (searchResult, searchDuration))
        /\ (totalHits searchResult = 0%Z \/ hits searchResult = [])
        /\ st' = searched
                   (searchParams pageSize (window toIso fromIso m)
                      fromIso toIso st1)
                   w1 searchDuration st1)
  \/ (exists (st1 : Locals World) (searchResult : SignalSearchResponse)
            (filterResult : FilterResult)
            (wrote : option SingleBulkCreateResult) (lastHit : SignalHit),
        belowBudget (window toIso fromIso m) st1
        /\ pageProcessed services pageSize toIso fromIso m st1 searchResult
             filterResult wrote st'
        /\ JS.lastElement
             (hits (pageAtCursor (window toIso fromIso m)
                      (signalsCreatedCount st1) searchResult filterResult))
           = Some lastHit
        /\ (sort lastHit = None \/ sort lastHit = Some [])).
Proof.
  revert st. induction fuel as [|fuel IH]; intros st; simpl.
  - destruct (JS.Qlt_bool _ _) eqn:Hg; [discriminate|].
    intro H. injection H as <-. left.
    now apply JSFacts.Qlt_bool_false_iff in Hg.
  - destruct (JS.Qlt_bool _ _) eqn:Hg.
    + apply JSFacts.Qlt_bool_iff in Hg.
      pose proof (pageBody_outcome services pageSize
                    (window toIso fromIso m) st) as Ho.
      destruct (pageBody services pageSize (window toIso fromIso m) st)
        as [st1 [[|]|exc]] eqn:Hb; [apply IH | | discriminate].
      intro H. injection H as <-. right.
      inversion Ho as [ | | | toIso' fromIso' w1 sr d E Hs Hz
                       | toIso' fromIso' sr fr wrote stW E Hp Hadv ];
        subst.
      * left. injection E as <- <-. simpl in *.
        exists st, w1, sr, d. repeat split; assumption.
      * right. injection E as <- <-. simpl in *.
        destruct (@advanceSortId_break_inv _ stW st1 Hadv)
          as (-> & lastHit & Hl & Hsort).
        exists st, sr, fr, wrote, lastHit. repeat split; assumption.
    + intro H. injection H as <-. left.
      now apply JSFacts.Qlt_bool_false_iff in Hg.
Qed.

End Throughout.

(** ** Facts about the concrete backend *)

Lemma bulkCreate_truthful : truthfulWriter Demo.services.
Proof.
  intros offered w w' b H. injection H as _ <-. simpl.
  apply inj_le. apply filter_length_le.
Qed.

Lemma caps_nonnegative :
  capsNonNegative [Some Demo.lastWeek; Some Demo.thisWeek].
Proof.
  intros tuple [H|[H|[]]]; injection H as <-; discriminate.
Qed.

(** ** Runs against the concrete backend *)

(** The budget bound at work: two windows capped at 10 and 8. *)
Lemma C1_witness :
  inject_Z (createdSignalsCount
              (toReturn (fst (searchAfterAndBulkCreate Demo.services 8 5
                                [Some Demo.lastWeek; Some Demo.thisWeek]
                                0%nat))))
  <= sumMaxSignals [Some Demo.lastWeek; Some Demo.thisWeek].
Proof.
  exact (proj2 (proj2 (C1_created_within_maxSignals 8 5 0%nat
                         bulkCreate_truthful caps_nonnegative))).
Defined.

(** C2, on the code. Two windows are planned. The window popped first ends
    with the cursor at "8"; the first page fetch of the window popped next
    is made with that cursor, not with an absent one. The per-window count,
    in contrast, starts again from 0. *)
Theorem C2_cursor_carried_into_next_window :
  let run :=
    searchAfterAndBulkCreate Demo.services 8 5
      [Some Demo.lastWeek; Some Demo.thisWeek] 0%nat in
  snd run = LoopExit
  /\ Demo.firstSearchOf "now-7d" (calls (fst run))
     = Some (mkSearchParams None "now-7d" "now" 8)
  /\ Demo.firstSearchOf "now-14d" (calls (fst run))
     = Some (mkSearchParams (Some "8"%string) "now-14d" "now-7d" 8)
  /\ createdSignalsCount (toReturn (fst run)) = 10%Z
  /\ signalsCreatedCount (fst run) = 2%Z.
Proof.
  vm_compute. repeat split.
Qed.

(** C3 as stated fails. A window capped at 10 with a configured page size
    of 8: the first page creates 8 signals, leaving a budget of 2, and the
    second page fetch still asks for 8 hits where the statement asks for
    [min(2, 8) = 2]. *)
Lemma C3_counterexample :
  exists (st1 : Locals nat) (more : list Call),
    pageBody Demo.services 8 Demo.lastWeek
      (with_signalsCreatedCount 0 (initialLocals 0%nat))
    = (st1, Ok Continue)
    /\ signalsCreatedCount st1 = 8%Z
    /\ belowBudget Demo.lastWeek st1
    /\ calls (fst (pageBody Demo.services 8 Demo.lastWeek st1))
       = calls st1
         ++ CallSearchAfter
              (mkSearchParams (Some "8"%string) "now-14d" "now-7d" 8)
            :: more
    /\ specPageSize Demo.lastWeek (signalsCreatedCount st1) 8 == 2
    /\ ~ 8 == specPageSize Demo.lastWeek (signalsCreatedCount st1) 8.
Proof.
  eexists. eexists. split; [vm_compute; reflexivity|].
  split; [reflexivity|]. split; [reflexivity|].
  split; [vm_compute; reflexivity|].
  split; [reflexivity | discriminate].
Qed.

(** The second page fetch of that run, as the amended statement has it. *)
Lemma C3_witness :
  exists tuple,
    In (Some tuple) [Some Demo.lastWeek]
    /\ from tuple = Some "now-14d"%string
    /\ to tuple = Some "now-7d"%string
    /\ 8 = (if JS.Qlt_bool (maxSignals tuple) 8
            then inject_Z (Qceiling (maxSignals tuple))
            else 8)
    /\ (forall k : Z,
          8 == inject_Z k ->
          8 == Qmin (inject_Z (Qceiling (maxSignals tuple))) 8).
Proof.
  apply (C3_pageSize_from_window_maxSignals Demo.services 8 5
           [Some Demo.lastWeek] 0%nat
           (mkSearchParams (Some "8"%string) "now-14d" "now-7d" 8)).
  vm_compute. tauto.
Defined.

(** A range that reports a total of 0 while returning a hit: the window is
    left after the fetch. *)
Lemma C4_witness :
  let tuple := window "now" "quiet" 5 in
  let st := with_signalsCreatedCount 0 (initialLocals 0%nat) in
  let params := searchParams 8 tuple "quiet" "now" st in
  let st' := searched params 1%nat "2" st in
  pageBody Demo.services 8 tuple st = (st', Ok Break)
  /\ calls st' = calls st ++ [CallSearchAfter params]
  /\ windowLoop Demo.services 8 (0 + 3) [Some tuple; Some Demo.lastWeek]
       (initialLocals 0%nat)
     = windowLoop Demo.services 8 (0 + 3) [Some Demo.lastWeek] st'
  /\ (forall (k : Z) (hs : list SignalHit),
        totalHits (mkResponse (TotalNumber k) hs) = k
        /\ totalHits (mkResponse (TotalObject k) hs) = k).
Proof.
  apply (C4_no_hits_ends_window (services := Demo.services) (pageSize := 8)
           2 [Some Demo.lastWeek]
           (st0 := initialLocals 0%nat)
           (searchResult := mkResponse (TotalNumber 0) [Demo.doc "0"])).
  - apply pagesThrough_start.
  - reflexivity.
  - reflexivity.
  - left. reflexivity.
Defined.

(** After a first window that created 8 signals, a range that cannot be
    searched: the run returns with the 8 signals counted and the error
    recorded. *)
Lemma C5_witness :
  let tuple := window "now-7d" "down" 10 in
  let st := with_signalsCreatedCount 0 afterThisWeek in
  let stF :=
    searchFailed (searchParams 8 tuple "down" "now-7d" st) 4%nat st in
  let result :=
    searchAfterAndBulkCreate Demo.services 8 (0 + 1)
      ([Some Demo.lastWeek] ++ Some tuple :: [Some Demo.thisWeek]) 0%nat in
  let r := toReturn (fst result) in
  let exc := "Error: search_phase_execution_exception"%string in
  snd result = Return
  /\ fst result = catchBlock exc stF
  /\ success r = false
  /\ In exc (errors r)
  /\ errors r
     = (if existsb (String.eqb exc) (errors (toReturn st))
        then errors (toReturn st)
        else errors (toReturn st) ++ [exc])
  /\ createdSignalsCount r = createdSignalsCount (toReturn stF)
  /\ searchAfterTimes r = searchAfterTimes (toReturn stF)
  /\ bulkCreateTimes r = bulkCreateTimes (toReturn stF)
  /\ lastLookBackDate r = lastLookBackDate (toReturn stF)
  /\ createdSignalsCount (toReturn stF) = createdSignalsCount (toReturn st)
  /\ bulkCreateTimes (toReturn stF) = bulkCreateTimes (toReturn st)
  /\ (exists pushed,
        searchAfterTimes (toReturn stF)
        = searchAfterTimes (toReturn st) ++ pushed).
Proof.
  apply (C5_thrown_call_aborts_run (services := Demo.services)
           (pageSize := 8) 0 [Some Demo.lastWeek]
           (earlier := [Some Demo.thisWeek]) (w := 0%nat)
           (st0 := afterThisWeek)).
  - vm_compute. reflexivity.
  - apply pagesThrough_start.
  - reflexivity.
  - apply search_throws. reflexivity.
Defined.

Lemma flaky_processed :
  pageProcessed Demo.services 8 "now" "flaky" 10 flakyStart flakyResponse
    (OwnObject flakyFiltered) (Some flakyWrite) flakyWritten.
Proof.
  apply (@processed_with_write nat Demo.services 8 "now" "flaky" 10
           flakyStart 1%nat 2%nat 3%nat flakyResponse
           (OwnObject flakyFiltered) "4" flakyWrite).
  - reflexivity.
  - split; discriminate.
  - reflexivity.
  - discriminate.
  - reflexivity.
Defined.

(** A bulk create that rejects one of two events: one signal is counted,
    the writer's error is recorded once, and the loop goes on. *)
Lemma write_failure_folded_in_witness :
  errors (toReturn flakyWritten) = ["bulk item rejected"%string]
  /\ success (toReturn flakyWritten) = false
  /\ createdSignalsCount (toReturn flakyWritten) = 1%Z
  /\ signalsCreatedCount flakyWritten = 1%Z
  /\ exists (ctl : LoopCtl) (st' : Locals nat),
       pageBody Demo.services 8 flakyTuple flakyStart = (st', Ok ctl)
       /\ toReturn st' = toReturn flakyWritten
       /\ signalsCreatedCount st' = signalsCreatedCount flakyWritten
       /\ pageLoop Demo.services 8 (S 2) flakyTuple flakyStart
          = match ctl with
            | Continue => pageLoop Demo.services 8 2 flakyTuple st'
            | Break => (st', LoopExit)
            end.
Proof.
  destruct (write_failure_folded_in 2
              (eq_refl : belowBudget flakyTuple flakyStart)
              flaky_processed eq_refl)
    as (He & _ & _ & Hs & Hc & Hn & _ & Hrest & _).
  repeat split; try assumption.
  apply Hrest. discriminate.
Defined.

(** C6, on the code. A rule without exception lists, so that the filter
    hands back the response it was given, and one window with a budget of
    half a signal. The page fetched has one hit. Line 196 cuts the batch to
    [slice(0, 0.5)], which is nothing, and with it the page, the two being
    one object. The bulk create resolves with [success] false and an error
    of its own, and its result is folded in. Line 243 then reads [.sort]
    off the last hit of a page without hits and throws: the run returns
    from the catch block, and the loop does not go on. *)
Theorem C6_failed_write_before_cursor_throws :
  let run :=
    searchAfterAndBulkCreate Demo.servicesWithoutListsOrIndex 8 5
      [Some Demo.halfWindow] 0%nat in
  let page := mkResponse (TotalObject 11) [Demo.doc "1"] in
  let batch := mkResponse (TotalObject 11) [] in
  calls (fst run)
  = [CallSearchAfter (mkSearchParams None "now-7d" "now" 1);
     CallFilter page; CallBulkCreate batch]
  /\ filterEventsAgainstList Demo.servicesWithoutListsOrIndex page 1%nat
     = (2%nat, Ok SameObject)
  /\ singleBulkCreate Demo.servicesWithoutListsOrIndex batch 2%nat
     = (3%nat,
        Ok (mkBulkResult None 0 false ["bulk index unavailable"%string]))
  /\ snd run = Return
  /\ success (toReturn (fst run)) = false
  /\ errors (toReturn (fst run))
     = ["bulk index unavailable"%string; JS.TypeError_sort].
Proof.
  vm_compute. repeat split.
Qed.

Lemma wide_first_page :
  pagesThrough Demo.services 8 wideTuple
    (with_signalsCreatedCount 0 wideStart) 1 wideAfterFirstPage.
Proof.
  apply pagesThrough_next with (st1 := wideAfterFirstPage).
  - reflexivity.
  - vm_compute. reflexivity.
  - apply pagesThrough_start.
Defined.

Lemma wide_second_page :
  pageProcessed Demo.services 8 "now-7d" "now-14d" 20 wideAfterFirstPage
    wideSecondResponse (OwnObject wideSecondFiltered) (Some wideSecondWrite)
    wideAfterSecondWrite.
Proof.
  apply (@processed_with_write nat Demo.services 8 "now-7d" "now-14d" 20
           wideAfterFirstPage
           4%nat 5%nat 6%nat wideSecondResponse
           (OwnObject wideSecondFiltered) "4" wideSecondWrite).
  - vm_compute. reflexivity.
  - split; discriminate.
  - reflexivity.
  - discriminate.
  - vm_compute. reflexivity.
Defined.

(** The second page of a window capped at 20: its last hit has no sort
    array, so the page loop is left there and the next tuple is taken. *)
Lemma cursor_from_search_page_unless_cut_witness :
  exists lastHit : SignalHit,
    JS.lastElement (hits wideSecondResponse) = Some lastHit
    /\ sort lastHit = None
    /\ pageBody Demo.services 8 wideTuple wideAfterFirstPage
       = (wideAfterSecondWrite, Ok Break)
    /\ windowLoop Demo.services 8 (1 + S 0)
         [Some wideTuple; Some Demo.thisWeek] wideStart
       = windowLoop Demo.services 8 (1 + S 0) [Some Demo.thisWeek]
           wideAfterSecondWrite.
Proof.
  destruct (cursor_from_search_page_unless_cut 0 [Some Demo.thisWeek]
              wide_first_page
              (eq_refl : belowBudget wideTuple wideAfterFirstPage)
              wide_second_page
              (or_introl (ex_intro _ wideSecondFiltered eq_refl)))
    as (lastHit & Hlast & _ & Hbreak & _).
  exists lastHit.
  assert (Hsort : sort lastHit = None).
  { vm_compute in Hlast. injection Hlast as <-. reflexivity. }
  destruct (Hbreak (or_introl Hsort)) as [Hbody Hwin].
  repeat split; assumption.
Defined.

(** C7, on the code. A rule without exception lists, so that the filter
    hands back the response it was given, and a window capped at 10 with a
    page size of 8. The first page creates 8 signals and leaves the cursor
    at "8". The second page comes back with three hits, the last of them
    without a sort array. Line 196 cuts the batch to the 2 signals still
    allowed, and with it the page, the two being one object: line 243 finds
    the second hit last, takes "10" from it as the new cursor and lets the
    loop continue, where the page as fetched would have ended the page loop
    with the cursor left at "8". The window popped next is fetched from
    "10". *)
Theorem C7_cursor_read_from_cut_page :
  let st0 := with_signalsCreatedCount 0 (initialLocals 0%nat) in
  let st1 := fst (pageBody Demo.servicesWithoutLists 8 Demo.lastWeek st0) in
  let st2 := fst (pageBody Demo.servicesWithoutLists 8 Demo.lastWeek st1) in
  let run :=
    searchAfterAndBulkCreate Demo.servicesWithoutLists 8 5
      [Some Demo.thisWeek; Some Demo.lastWeek] 0%nat in
  pageBody Demo.servicesWithoutLists 8 Demo.lastWeek st0 = (st1, Ok Continue)
  /\ sortId st1 = Some "8"%string
  /\ belowBudget Demo.lastWeek st1
  /\ singleSearchAfter Demo.servicesWithoutLists
       (searchParams 8 Demo.lastWeek "now-14d" "now-7d" st1) (world st1)
     = (4%nat, Ok (wideSecondResponse, "4"%string))
  /\ filterEventsAgainstList Demo.servicesWithoutLists wideSecondResponse
       4%nat
     = (5%nat, Ok SameObject)
  /\ JS.lastElement (hits wideSecondResponse)
     = Some (Demo.unsortedDoc "11")
  /\ sort (Demo.unsortedDoc "11") = None
  /\ pageBody Demo.servicesWithoutLists 8 Demo.lastWeek st1
     = (st2, Ok Continue)
  /\ sortId st2 = Some "10"%string
  /\ snd run = LoopExit
  /\ cursors (calls (fst run)) = [None; Some "8"%string; Some "10"%string]
  /\ Demo.firstSearchOf "now-7d" (calls (fst run))
     = Some (mkSearchParams (Some "10"%string) "now-7d" "now" 8).
Proof.
  vm_compute. repeat split.
Qed.

(** A tuple without its [to] bound, met after a window that created 8
    signals. *)
Lemma C8_witness :
  let result :=
    searchAfterAndBulkCreate Demo.services 8 1
      ([Some Demo.lastWeek]
       ++ Some (mkTuple None (Some "now-14d"%string) 10)
          :: [Some Demo.thisWeek])
      0%nat in
  let r := toReturn (fst result) in
  snd result = Return
  /\ success r = false
  /\ In "malformed date tuple"%string (errors r)
  /\ errors r
     = (if existsb (String.eqb "malformed date tuple")
             (errors (toReturn afterThisWeek))
        then errors (toReturn afterThisWeek)
        else errors (toReturn afterThisWeek)
             ++ ["malformed date tuple"%string])
  /\ createdSignalsCount r = createdSignalsCount (toReturn afterThisWeek)
  /\ searchAfterTimes r = searchAfterTimes (toReturn afterThisWeek)
  /\ bulkCreateTimes r = bulkCreateTimes (toReturn afterThisWeek)
  /\ lastLookBackDate r = lastLookBackDate (toReturn afterThisWeek)
  /\ calls (fst result) = calls afterThisWeek.
Proof.
  apply (@C8_malformed_tuple_fails_run nat Demo.services 8 1
           [Some Demo.lastWeek] [Some Demo.thisWeek]
           (Some (mkTuple None (Some "now-14d"%string) 10)) 0%nat
           afterThisWeek).
  - vm_compute. reflexivity.
  - reflexivity.
Defined.

Lemma wide_first_processed :
  pageProcessed Demo.services 8 "now-7d" "now-14d" 20
    (with_signalsCreatedCount 0 wideStart) firstResponse
    (OwnObject firstFiltered) (Some firstWrite) wideAfterFirstWrite.
Proof.
  apply (@processed_with_write nat Demo.services 8 "now-7d" "now-14d" 20
           (with_signalsCreatedCount 0 wideStart)
           1%nat 2%nat 3%nat firstResponse (OwnObject firstFiltered) "4"
           firstWrite).
  - reflexivity.
  - split; discriminate.
  - reflexivity.
  - discriminate.
  - vm_compute. reflexivity.
Defined.

(** The first page of a window: its last hit carries the sort array
    ["8"; "tie"], and the next fetch is made with "8" alone. *)
Lemma C10_witness :
  exists st' : Locals nat,
    pageBody Demo.services 8 wideTuple (with_signalsCreatedCount 0 wideStart)
    = (st', Ok Continue)
    /\ sortId st' = Some "8"%string
    /\ exists more,
         calls (fst (pageBody Demo.services 8 wideTuple st'))
         = calls st'
           ++ CallSearchAfter
                (mkSearchParams (Some "8"%string) "now-14d" "now-7d"
                   (pageSizeArg 8 wideTuple))
              :: more
         /\ noSearch more.
Proof.
  exact (proj1 (C10_cursor_is_first_sort_element
                  (lastHit := Demo.doc "8") (first := "8")
                  (others := ["tie"%string])
                  wide_first_processed eq_refl eq_refl)).
Defined.

(** ** Further runs against the concrete backend *)

(** A [null] entry between two windows. *)
Lemma malformed_tuple_never_completes_witness :
  snd (searchAfterAndBulkCreate Demo.services 8 5
         [Some Demo.lastWeek; None; Some Demo.thisWeek] 0%nat)
  <> LoopExit.
Proof.
  apply (@malformed_tuple_never_completes nat Demo.services 8 5
           [Some Demo.lastWeek; None; Some Demo.thisWeek] None 0%nat).
  - simpl. tauto.
  - reflexivity.
Defined.

(** Two windows capped at 0 and at -3. *)
Lemma no_budget_no_calls_witness :
  searchAfterAndBulkCreate Demo.services 8 5
    [Some (window "now" "now-7d" 0); Some (window "now-7d" "now-14d" (-3))]
    0%nat
  = (initialLocals 0%nat, LoopExit).
Proof.
  apply no_budget_no_calls.
  intros tuple [H|[H|[]]]; subst tuple.
  - exists "now"%string, "now-7d"%string, 0. split; [reflexivity|].
    discriminate.
  - exists "now-7d"%string, "now-14d"%string, (-3). split; [reflexivity|].
    discriminate.
Defined.

(** The first bulk create of a window capped at 10. *)
Lemma writer_never_handed_empty_batch_witness :
  hits firstFiltered <> [].
Proof.
  apply (@writer_never_handed_empty_batch nat Demo.services 8 5
           [Some Demo.lastWeek] 0%nat firstFiltered).
  - intros tuple [H|[]]. injection H as <-. exists 10%Z. reflexivity.
  - vm_compute. tauto.
Defined.

(** Ten signals created out of ten events offered. *)
Lemma created_within_events_offered_witness :
  let st :=
    fst (searchAfterAndBulkCreate Demo.services 8 5
           [Some Demo.lastWeek; Some Demo.thisWeek] 0%nat) in
  (createdSignalsCount (toReturn st) <= offeredEvents (calls st))%Z.
Proof.
  exact (@created_within_events_offered nat Demo.services 8 5
           [Some Demo.lastWeek; Some Demo.thisWeek] 0%nat
           bulkCreate_truthful).
Defined.

(** The window [thisWeek] is left with its budget of 8 used up. *)
Lemma page_loop_left_for_three_reasons_witness :
  8 <= inject_Z (signalsCreatedCount afterThisWeek)
  \/ (exists (st1 : Locals nat) (w1 : nat)
            (searchResult : SignalSearchResponse) (searchDuration : string),
        belowBudget (window "now" "now-7d" 8) st1
        /\ singleSearchAfter Demo.services
             (searchParams 8 (window "now" "now-7d" 8) "now-7d" "now" st1)
             (world st1)
           = (w1, Ok (searchResult, searchDuration))
        /\ (totalHits searchResult = 0%Z \/ hits searchResult = [])
        /\ afterThisWeek
           = searched
               (searchParams 8 (window "now" "now-7d" 8) "now-7d" "now" st1)
               w1 searchDuration st1)
  \/ (exists (st1 : Locals nat) (searchResult : SignalSearchResponse)
            (filterResult : FilterResult)
            (wrote : option SingleBulkCreateResult) (lastHit : SignalHit),
        belowBudget (window "now" "now-7d" 8) st1
        /\ pageProcessed Demo.services 8 "now" "now-7d" 8 st1 searchResult
             filterResult wrote afterThisWeek
        /\ JS.lastElement
             (hits (pageAtCursor (window "now" "now-7d" 8)
                      (signalsCreatedCount st1) searchResult filterResult))
           = Some lastHit
        /\ (sort lastHit = None \/ sort lastHit = Some [])).
Proof.
  apply (@page_loop_left_for_three_reasons nat Demo.services 8 1
           "now" "now-7d" 8
           (with_signalsCreatedCount 0 (initialLocals 0%nat)) afterThisWeek).
  vm_compute. reflexivity.
Defined.
